(** * LionCombobox: a shallow embedding of [packages/combobox/src/LionCombobox.js]

    The combobox is a text input wired to a filterable listbox of options.
    Its state lives on DOM nodes; here every node is a record, the element
    itself is the record [LionCombobox], and every method is a function
    from state to state.  Methods that can raise a JavaScript exception
    return a [Completion].

    Two collaborators stay abstract, each behind a class: the regular
    expressions of the JavaScript host ([RegExpEngine]) and the base
    classes the element extends ([Superclass]).  Every property below
    holds for all of them; [Example] has one instance of each to run the
    methods on a concrete page. *)

From stdpp Require Import gmap strings list fin_maps.
From Stdlib Require Import Ascii DecimalString.

(* String literals, with the list and number notations kept in front. *)
Open Scope string_scope.
Open Scope list_scope.
Open Scope nat_scope.
Open Scope stdpp_scope.

(** ** JavaScript strings

    A string is a sequence of code units.  The model keeps the code units
    U+0000..U+00FF (one [ascii] each, read as Latin-1), the range on which
    [toLowerCase] maps one unit to one unit. *)

Module JsString.

(** [String.prototype.toLowerCase] on one code unit: A-Z and the accented
    capitals U+00C0..U+00DE (without the multiplication sign U+00D7) move
    up by 32. *)
Definition lowerUnit (c : ascii) : ascii :=
  let n := nat_of_ascii c in
  if ((65 <=? n) && (n <=? 90))
     || ((192 <=? n) && (n <=? 222) && negb (n =? 215))
  then ascii_of_nat (n + 32)
  else c.

Fixpoint toLowerCase (s : string) : string :=
  match s with
  | EmptyString => EmptyString
  | String c s' => String (lowerUnit c) (toLowerCase s')
  end.

(** [hay.indexOf(needle)], searching from position [pos] of the original
    string: the first position at which [needle] starts, or -1. *)
Fixpoint indexOfFrom (pos : nat) (hay needle : string) : Z :=
  if String.prefix needle hay then Z.of_nat pos
  else match hay with
       | EmptyString => (-1)%Z
       | String _ hay' => indexOfFrom (S pos) hay' needle
       end.

Definition indexOf (hay needle : string) : Z := indexOfFrom 0 hay needle.

(** [s.slice(0, n)] for a non-negative [n]. *)
Definition slice0 (s : string) (n : nat) : string := String.substring 0 n s.

(** Template-literal conversion of a number, [`${n}`]. *)
Definition ofNat (n : nat) : string := NilEmpty.string_of_uint (Nat.to_uint n).

(** Template-literal conversion of a boolean, [`${b}`]. *)
Definition ofBool (b : bool) : string := if b then "true" else "false".

(** JavaScript truthiness of a string. *)
Definition truthy (s : string) : bool :=
  match s with EmptyString => false | _ => true end.

(** What "contains" and "begins with" mean, said without [indexOf]:
    the needle, up to letter case, is a factor (a leading factor) of the
    haystack. *)
Definition equalIgnoringCase (a b : string) : Prop :=
  toLowerCase a = toLowerCase b.

Definition containsIgnoringCase (hay needle : string) : Prop :=
  exists pre mid post,
    hay = pre +:+ mid +:+ post /\ equalIgnoringCase mid needle.

Definition beginsWithIgnoringCase (hay needle : string) : Prop :=
  exists mid post, hay = mid +:+ post /\ equalIgnoringCase mid needle.

End JsString.

Import JsString.

(** ** Completions: a method returns normally or throws

    A throw keeps the kind of the exception and drops the state reached:
    nothing below speaks of the element after an exception. *)

Inductive JsError := TypeError | SyntaxError.

Inductive Completion (A : Type) :=
| Normal (a : A)
| Throw (e : JsError).
Arguments Normal {A} a.
Arguments Throw {A} e.

#[global] Instance Completion_ret : MRet Completion := @Normal.
#[global] Instance Completion_bind : MBind Completion :=
  fun A B k m => match m with Normal a => k a | Throw e => Throw e end.

(** Reading a property of a node that may be [null]. *)
Definition deref {A} (node : option A) : Completion A :=
  match node with Some n => Normal n | None => Throw TypeError end.

(** ** DOM nodes *)

(** The listeners this class hands to [addEventListener], and those of the
    base classes, known by name only. *)
Inductive Listener :=
| listener_listboxOnKeyDown
| listener_textboxOnInput
| listener_showOverlay
| listener_inherited (name : string).

#[global] Instance Listener_eq_dec : EqDecision Listener.
Proof. solve_decision. Defined.

Record HTMLElement := {
  elem_id : string;
  attributes : gmap string string;
  listeners : list (string * Listener);
}.

Definition setAttribute (name value : string) (e : HTMLElement) : HTMLElement :=
  {| elem_id := elem_id e;
     attributes := <[name := value]> (attributes e);
     listeners := listeners e |}.

Definition getAttribute (name : string) (e : HTMLElement) : option string :=
  attributes e !! name.

(** A listener already registered for the event type is not added twice. *)
Definition addEventListener (type : string) (l : Listener) (e : HTMLElement)
  : HTMLElement :=
  {| elem_id := elem_id e;
     attributes := attributes e;
     listeners := if decide ((type, l) ∈ listeners e) then listeners e
                  else listeners e ++ [(type, l)] |}.

Definition removeEventListener (type : string) (l : Listener) (e : HTMLElement)
  : HTMLElement :=
  {| elem_id := elem_id e;
     attributes := attributes e;
     listeners := filter (fun r => r ≠ (type, l)) (listeners e) |}.

(** The text box.  [value], [selectionStart] and [selectionEnd] are stored
    as the code assigns them. *)
Record HTMLInputElement := {
  input_elem : HTMLElement;
  value : string;
  selectionStart : nat;
  selectionEnd : nat;
  focused : bool;
}.

Definition input_with_elem (e : HTMLElement) (i : HTMLInputElement) :=
  {| input_elem := e; value := value i; selectionStart := selectionStart i;
     selectionEnd := selectionEnd i; focused := focused i |}.

Definition input_with_value (v : string) (i : HTMLInputElement) :=
  {| input_elem := input_elem i; value := v; selectionStart := selectionStart i;
     selectionEnd := selectionEnd i; focused := focused i |}.

Definition input_with_selectionStart (n : nat) (i : HTMLInputElement) :=
  {| input_elem := input_elem i; value := value i; selectionStart := n;
     selectionEnd := selectionEnd i; focused := focused i |}.

Definition input_with_selectionEnd (n : nat) (i : HTMLInputElement) :=
  {| input_elem := input_elem i; value := value i; selectionStart := selectionStart i;
     selectionEnd := n; focused := focused i |}.

Definition focus (i : HTMLInputElement) :=
  {| input_elem := input_elem i; value := value i; selectionStart := selectionStart i;
     selectionEnd := selectionEnd i; focused := true |}.

(** ** Options *)

Module LionOption.

(** What filtering changes on an option: its [disabled] flag, its markup,
    its [style.display] and its attributes. *)
Record View := {
  disabled : bool;
  innerHTML : string;
  __originalInnerHTML : option string;
  style_display : string;
  attrs : gmap string string;
}.

(** An option element.  [onFilterUnmatch] and [onFilterMatch] are the
    optional methods an option may bring along; each is known by what it
    does to the option's own [View]. *)
Record t := {
  id : string;
  choiceValue : string;
  value : string;
  active : bool;
  view : View;
  onFilterUnmatch : option (string -> string -> View -> View);
  onFilterMatch : option (string -> View -> View);
}.

Definition with_view (v : View) (o : t) : t :=
  {| id := id o; choiceValue := choiceValue o; value := value o;
     active := active o; view := v;
     onFilterUnmatch := onFilterUnmatch o; onFilterMatch := onFilterMatch o |}.

Definition set_disabled (b : bool) (v : View) : View :=
  {| disabled := b; innerHTML := innerHTML v;
     __originalInnerHTML := __originalInnerHTML v;
     style_display := style_display v; attrs := attrs v |}.

Definition set_innerHTML (s : string) (v : View) : View :=
  {| disabled := disabled v; innerHTML := s;
     __originalInnerHTML := __originalInnerHTML v;
     style_display := style_display v; attrs := attrs v |}.

Definition set_originalInnerHTML (s : string) (v : View) : View :=
  {| disabled := disabled v; innerHTML := innerHTML v;
     __originalInnerHTML := Some s;
     style_display := style_display v; attrs := attrs v |}.

Definition set_display (s : string) (v : View) : View :=
  {| disabled := disabled v; innerHTML := innerHTML v;
     __originalInnerHTML := __originalInnerHTML v;
     style_display := s; attrs := attrs v |}.

Definition setAttribute (name val : string) (v : View) : View :=
  {| disabled := disabled v; innerHTML := innerHTML v;
     __originalInnerHTML := __originalInnerHTML v;
     style_display := style_display v; attrs := <[name := val]> (attrs v) |}.

Definition removeAttribute (name : string) (v : View) : View :=
  {| disabled := disabled v; innerHTML := innerHTML v;
     __originalInnerHTML := __originalInnerHTML v;
     style_display := style_display v; attrs := delete name (attrs v) |}.

Definition getAttribute (name : string) (o : t) : option string :=
  attrs (view o) !! name.

End LionOption.

Abbreviation LionOption := LionOption.t.

(** ** The host's regular expressions

    [_onFilterMatch] builds a [RegExp] from the typed text and replaces its
    first match in the option's markup.  The engine belongs to the host:
    [replaceFirstMatchWithBold html pattern] stands for
    [html.replace(new RegExp(`(${pattern})`, 'i'), `<b>$1</b>`)], which
    returns the new markup or throws a [SyntaxError] when the host rejects
    the pattern. *)
Class RegExpEngine := {
  replaceFirstMatchWithBold : string -> string -> Completion string;
}.

(** ** Other collaborators *)

(** [changedProperties]: the names of the changed properties, each with its
    old value. *)
Inductive JsValue :=
| JsUndefined
| JsBoolean (b : bool)
| JsNumber (z : Z)
| JsString (s : string).

Abbreviation PropertyValues := (gmap string JsValue).

Definition has (name : string) (changedProperties : PropertyValues) : bool :=
  bool_decide (is_Some (changedProperties !! name)).

(** The optional element in the [selection-display] slot: whether its
    [comboboxElement] points to this combobox, and the calls of
    [onComboboxElementUpdated] it has received, latest first. *)
Record SelectionDisplay := {
  comboboxElement : bool;
  updatesReceived : list PropertyValues;
}.

Definition onComboboxElementUpdated (changedProperties : PropertyValues)
    (node : SelectionDisplay) : SelectionDisplay :=
  {| comboboxElement := comboboxElement node;
     updatesReceived := changedProperties :: updatesReceived node |}.

(** The popper of the overlay controller, by the number of [update()] calls. *)
Record Popper := { updateCalls : nat }.

Record OverlayController := {
  contentNode : option HTMLElement;
  _popper : option Popper;
}.

(** ** Events *)

Record KeyboardEvent := { key : string }.

(** An [input] event, by the [value] of its target. *)
Record InputEvent := { input_target_value : string }.

(** An [active-changed] event of a child option, by the [id] and the
    [active] flag of its target as the handler reads them. *)
Record ActiveChangedEvent := { target_id : string; target_active : bool }.

Variant MouseEvent := click.

(** ** The combobox element *)

Record LionCombobox := {
  (* properties declared by this class *)
  autocomplete : string;
  matchMode : string;
  __shouldAutocompleteNextUpdate : bool;
  (* fields set by the constructor and by the handlers *)
  __cboxInputValue : string;
  __prevCboxValueNonSelected : string;
  __blockListShow : bool;
  (* inherited properties this class reads or assigns *)
  disabled : bool;
  readOnly : bool;
  multipleChoice : bool;
  opened : bool;
  activeIndex : Z;
  checkedIndex : Z;
  formElements : list LionOption;
  (* the element's own attributes, and the nodes its getters return;
     [listboxSlotChild] is the child in the listbox slot *)
  hostAttributes : gmap string string;
  _inputNode : HTMLInputElement;
  _comboboxNode : option HTMLElement;
  _selectionDisplayNode : option SelectionDisplay;
  _labelNode : HTMLElement;
  listboxSlotChild : HTMLElement;
  _overlayCtrl : option OverlayController;
}.

Definition set___shouldAutocompleteNextUpdate (b : bool) (c : LionCombobox) :=
  {| autocomplete := autocomplete c; matchMode := matchMode c;
     __shouldAutocompleteNextUpdate := b;
     __cboxInputValue := __cboxInputValue c;
     __prevCboxValueNonSelected := __prevCboxValueNonSelected c;
     __blockListShow := __blockListShow c; disabled := disabled c;
     readOnly := readOnly c; multipleChoice := multipleChoice c;
     opened := opened c; activeIndex := activeIndex c;
     checkedIndex := checkedIndex c; formElements := formElements c;
     hostAttributes := hostAttributes c; _inputNode := _inputNode c;
     _comboboxNode := _comboboxNode c;
     _selectionDisplayNode := _selectionDisplayNode c;
     _labelNode := _labelNode c; listboxSlotChild := listboxSlotChild c;
     _overlayCtrl := _overlayCtrl c |}.

Definition set___cboxInputValue (s : string) (c : LionCombobox) :=
  {| autocomplete := autocomplete c; matchMode := matchMode c;
     __shouldAutocompleteNextUpdate := __shouldAutocompleteNextUpdate c;
     __cboxInputValue := s;
     __prevCboxValueNonSelected := __prevCboxValueNonSelected c;
     __blockListShow := __blockListShow c; disabled := disabled c;
     readOnly := readOnly c; multipleChoice := multipleChoice c;
     opened := opened c; activeIndex := activeIndex c;
     checkedIndex := checkedIndex c; formElements := formElements c;
     hostAttributes := hostAttributes c; _inputNode := _inputNode c;
     _comboboxNode := _comboboxNode c;
     _selectionDisplayNode := _selectionDisplayNode c;
     _labelNode := _labelNode c; listboxSlotChild := listboxSlotChild c;
     _overlayCtrl := _overlayCtrl c |}.

Definition set___prevCboxValueNonSelected (s : string) (c : LionCombobox) :=
  {| autocomplete := autocomplete c; matchMode := matchMode c;
     __shouldAutocompleteNextUpdate := __shouldAutocompleteNextUpdate c;
     __cboxInputValue := __cboxInputValue c;
     __prevCboxValueNonSelected := s;
     __blockListShow := __blockListShow c; disabled := disabled c;
     readOnly := readOnly c; multipleChoice := multipleChoice c;
     opened := opened c; activeIndex := activeIndex c;
     checkedIndex := checkedIndex c; formElements := formElements c;
     hostAttributes := hostAttributes c; _inputNode := _inputNode c;
     _comboboxNode := _comboboxNode c;
     _selectionDisplayNode := _selectionDisplayNode c;
     _labelNode := _labelNode c; listboxSlotChild := listboxSlotChild c;
     _overlayCtrl := _overlayCtrl c |}.

Definition set_opened (b : bool) (c : LionCombobox) :=
  {| autocomplete := autocomplete c; matchMode := matchMode c;
     __shouldAutocompleteNextUpdate := __shouldAutocompleteNextUpdate c;
     __cboxInputValue := __cboxInputValue c;
     __prevCboxValueNonSelected := __prevCboxValueNonSelected c;
     __blockListShow := __blockListShow c; disabled := disabled c;
     readOnly := readOnly c; multipleChoice := multipleChoice c;
     opened := b; activeIndex := activeIndex c;
     checkedIndex := checkedIndex c; formElements := formElements c;
     hostAttributes := hostAttributes c; _inputNode := _inputNode c;
     _comboboxNode := _comboboxNode c;
     _selectionDisplayNode := _selectionDisplayNode c;
     _labelNode := _labelNode c; listboxSlotChild := listboxSlotChild c;
     _overlayCtrl := _overlayCtrl c |}.

Definition set_activeIndex (z : Z) (c : LionCombobox) :=
  {| autocomplete := autocomplete c; matchMode := matchMode c;
     __shouldAutocompleteNextUpdate := __shouldAutocompleteNextUpdate c;
     __cboxInputValue := __cboxInputValue c;
     __prevCboxValueNonSelected := __prevCboxValueNonSelected c;
     __blockListShow := __blockListShow c; disabled := disabled c;
     readOnly := readOnly c; multipleChoice := multipleChoice c;
     opened := opened c; activeIndex := z;
     checkedIndex := checkedIndex c; formElements := formElements c;
     hostAttributes := hostAttributes c; _inputNode := _inputNode c;
     _comboboxNode := _comboboxNode c;
     _selectionDisplayNode := _selectionDisplayNode c;
     _labelNode := _labelNode c; listboxSlotChild := listboxSlotChild c;
     _overlayCtrl := _overlayCtrl c |}.

Definition set_formElements (l : list LionOption) (c : LionCombobox) :=
  {| autocomplete := autocomplete c; matchMode := matchMode c;
     __shouldAutocompleteNextUpdate := __shouldAutocompleteNextUpdate c;
     __cboxInputValue := __cboxInputValue c;
     __prevCboxValueNonSelected := __prevCboxValueNonSelected c;
     __blockListShow := __blockListShow c; disabled := disabled c;
     readOnly := readOnly c; multipleChoice := multipleChoice c;
     opened := opened c; activeIndex := activeIndex c;
     checkedIndex := checkedIndex c; formElements := l;
     hostAttributes := hostAttributes c; _inputNode := _inputNode c;
     _comboboxNode := _comboboxNode c;
     _selectionDisplayNode := _selectionDisplayNode c;
     _labelNode := _labelNode c; listboxSlotChild := listboxSlotChild c;
     _overlayCtrl := _overlayCtrl c |}.

Definition set_hostAttributes (m : gmap string string) (c : LionCombobox) :=
  {| autocomplete := autocomplete c; matchMode := matchMode c;
     __shouldAutocompleteNextUpdate := __shouldAutocompleteNextUpdate c;
     __cboxInputValue := __cboxInputValue c;
     __prevCboxValueNonSelected := __prevCboxValueNonSelected c;
     __blockListShow := __blockListShow c; disabled := disabled c;
     readOnly := readOnly c; multipleChoice := multipleChoice c;
     opened := opened c; activeIndex := activeIndex c;
     checkedIndex := checkedIndex c; formElements := formElements c;
     hostAttributes := m; _inputNode := _inputNode c;
     _comboboxNode := _comboboxNode c;
     _selectionDisplayNode := _selectionDisplayNode c;
     _labelNode := _labelNode c; listboxSlotChild := listboxSlotChild c;
     _overlayCtrl := _overlayCtrl c |}.

Definition set__inputNode (i : HTMLInputElement) (c : LionCombobox) :=
  {| autocomplete := autocomplete c; matchMode := matchMode c;
     __shouldAutocompleteNextUpdate := __shouldAutocompleteNextUpdate c;
     __cboxInputValue := __cboxInputValue c;
     __prevCboxValueNonSelected := __prevCboxValueNonSelected c;
     __blockListShow := __blockListShow c; disabled := disabled c;
     readOnly := readOnly c; multipleChoice := multipleChoice c;
     opened := opened c; activeIndex := activeIndex c;
     checkedIndex := checkedIndex c; formElements := formElements c;
     hostAttributes := hostAttributes c; _inputNode := i;
     _comboboxNode := _comboboxNode c;
     _selectionDisplayNode := _selectionDisplayNode c;
     _labelNode := _labelNode c; listboxSlotChild := listboxSlotChild c;
     _overlayCtrl := _overlayCtrl c |}.

Definition set__comboboxNode (n : option HTMLElement) (c : LionCombobox) :=
  {| autocomplete := autocomplete c; matchMode := matchMode c;
     __shouldAutocompleteNextUpdate := __shouldAutocompleteNextUpdate c;
     __cboxInputValue := __cboxInputValue c;
     __prevCboxValueNonSelected := __prevCboxValueNonSelected c;
     __blockListShow := __blockListShow c; disabled := disabled c;
     readOnly := readOnly c; multipleChoice := multipleChoice c;
     opened := opened c; activeIndex := activeIndex c;
     checkedIndex := checkedIndex c; formElements := formElements c;
     hostAttributes := hostAttributes c; _inputNode := _inputNode c;
     _comboboxNode := n;
     _selectionDisplayNode := _selectionDisplayNode c;
     _labelNode := _labelNode c; listboxSlotChild := listboxSlotChild c;
     _overlayCtrl := _overlayCtrl c |}.

Definition set__selectionDisplayNode (n : option SelectionDisplay)
    (c : LionCombobox) :=
  {| autocomplete := autocomplete c; matchMode := matchMode c;
     __shouldAutocompleteNextUpdate := __shouldAutocompleteNextUpdate c;
     __cboxInputValue := __cboxInputValue c;
     __prevCboxValueNonSelected := __prevCboxValueNonSelected c;
     __blockListShow := __blockListShow c; disabled := disabled c;
     readOnly := readOnly c; multipleChoice := multipleChoice c;
     opened := opened c; activeIndex := activeIndex c;
     checkedIndex := checkedIndex c; formElements := formElements c;
     hostAttributes := hostAttributes c; _inputNode := _inputNode c;
     _comboboxNode := _comboboxNode c;
     _selectionDisplayNode := n;
     _labelNode := _labelNode c; listboxSlotChild := listboxSlotChild c;
     _overlayCtrl := _overlayCtrl c |}.

Definition set__overlayCtrl (o : option OverlayController) (c : LionCombobox) :=
  {| autocomplete := autocomplete c; matchMode := matchMode c;
     __shouldAutocompleteNextUpdate := __shouldAutocompleteNextUpdate c;
     __cboxInputValue := __cboxInputValue c;
     __prevCboxValueNonSelected := __prevCboxValueNonSelected c;
     __blockListShow := __blockListShow c; disabled := disabled c;
     readOnly := readOnly c; multipleChoice := multipleChoice c;
     opened := opened c; activeIndex := activeIndex c;
     checkedIndex := checkedIndex c; formElements := formElements c;
     hostAttributes := hostAttributes c; _inputNode := _inputNode c;
     _comboboxNode := _comboboxNode c;
     _selectionDisplayNode := _selectionDisplayNode c;
     _labelNode := _labelNode c; listboxSlotChild := listboxSlotChild c;
     _overlayCtrl := o |}.

(** The base classes ([LionListbox] with [OverlayMixin]) are not part of
    this file of the repository: each [super] call is a state change this
    class knows nothing about. *)
Class Superclass := {
  super_connectedCallback : LionCombobox -> LionCombobox;
  super_updated : PropertyValues -> LionCombobox -> LionCombobox;
  super__listboxOnClick : MouseEvent -> LionCombobox -> LionCombobox;
  super__listboxOnKeyDown : KeyboardEvent -> LionCombobox -> LionCombobox;
  super__onChildActiveChanged : ActiveChangedEvent -> LionCombobox -> LionCombobox;
  super__setupOverlayCtrl : LionCombobox -> LionCombobox;
  super__setupOpenCloseListeners : LionCombobox -> LionCombobox;
  super__teardownOpenCloseListeners : LionCombobox -> LionCombobox;
}.

(** ** The methods of [LionCombobox] *)

(** [array[z]]: [undefined] outside the array. *)
Definition at_index {A} (l : list A) (z : Z) : option A :=
  if (z <? 0)%Z then None else l !! Z.to_nat z.

(** The locals of one run of [_handleAutocompletion].  [visibleOptions]
    holds references to options: their indices in [formElements]. *)
Record Locals := {
  visibleOptions : list nat;
  hasAutoFilled : bool;
}.

Definition push (index : nat) (l : Locals) : Locals :=
  {| visibleOptions := visibleOptions l ++ [index];
     hasAutoFilled := hasAutoFilled l |}.

Definition set_hasAutoFilled (b : bool) (l : Locals) : Locals :=
  {| visibleOptions := visibleOptions l; hasAutoFilled := b |}.

Section methods.
Context `{!RegExpEngine} `{!Superclass}.

Definition _listboxNode (this : LionCombobox) : HTMLElement :=
  match _overlayCtrl this with
  | Some ctrl => default (listboxSlotChild this) (contentNode ctrl)
  | None => listboxSlotChild this
  end.

Definition _overlayInvokerNode (this : LionCombobox) : option HTMLElement :=
  _comboboxNode this.

Definition connectedCallback (this : LionCombobox) : LionCombobox :=
  let this := super_connectedCallback this in
  match _selectionDisplayNode this with
  | Some node =>
      set__selectionDisplayNode
        (Some {| comboboxElement := true;
                 updatesReceived := updatesReceived node |}) this
  | None => this
  end.

Definition filterOptionCondition (this : LionCombobox) (option : LionOption)
    (curValue : string) : bool :=
  let idx := indexOf (toLowerCase (LionOption.choiceValue option))
                     (toLowerCase curValue) in
  if String.eqb (matchMode this) "all" then (-1 <? idx)%Z
  else (idx =? 0)%Z.

Definition _onFilterMatch (option : LionOption) (matchingString : string)
  : Completion LionOption :=
  let innerHTML := LionOption.innerHTML (LionOption.view option) in
  let v := LionOption.set_originalInnerHTML innerHTML (LionOption.view option) in
  html ← replaceFirstMatchWithBold innerHTML matchingString;
  mret (LionOption.with_view
          (LionOption.set_display "" (LionOption.set_innerHTML html v)) option).

Definition _onFilterUnmatch (option : LionOption) (curValue prevValue : string)
  : LionOption :=
  let v := LionOption.view option in
  let v := match LionOption.__originalInnerHTML v with
           | Some original =>
               if truthy original then LionOption.set_innerHTML original v else v
           | None => v
           end in
  LionOption.with_view
    (LionOption.set_disabled true (LionOption.set_display "none" v)) option.

(** Step [1] on one option: its own [onFilterUnmatch], or the class's. *)
Definition unmatched (curValue prevValue : string) (option : LionOption)
  : LionOption :=
  match LionOption.onFilterUnmatch option with
  | Some hook =>
      LionOption.with_view (hook curValue prevValue (LionOption.view option)) option
  | None => _onFilterUnmatch option curValue prevValue
  end.

(** Step [3] on one option. *)
Definition withoutA11y (option : LionOption) : LionOption :=
  LionOption.with_view
    (LionOption.removeAttribute "aria-setsize"
       (LionOption.removeAttribute "aria-posinset"
          (LionOption.set_disabled true (LionOption.view option)))) option.

(** Step [4] on an option that is shown: its own [onFilterMatch], or the
    class's. *)
Definition matched (curValue : string) (option : LionOption)
  : Completion LionOption :=
  match LionOption.onFilterMatch option with
  | Some hook =>
      mret (LionOption.with_view (hook curValue (LionOption.view option)) option)
  | None => _onFilterMatch option curValue
  end.

(** The test of step [5]: [option.choiceValue] begins with the typed text. *)
Definition beginsWith (option : LionOption) (curValue : string) : bool :=
  (indexOf (toLowerCase (LionOption.choiceValue option)) (toLowerCase curValue)
   =? 0)%Z.

(** The assignments of step [5]. *)
Definition completeInline (index : nat) (option : LionOption)
    (this : LionCombobox) : LionCombobox :=
  let this :=
    if String.eqb (autocomplete this) "both" then
      let input := input_with_value (LionOption.choiceValue option)
                     (_inputNode this) in
      let input := input_with_selectionStart
                     (String.length (__cboxInputValue this)) input in
      let input := input_with_selectionEnd (String.length (value input)) input in
      set__inputNode input this
    else this in
  set_activeIndex (Z.of_nat index) this.

(** The body of the first [forEach] of [_handleAutocompletion], steps [1]
    to [5], for the option at [index].  It returns the option as the
    step leaves it, with the combobox and the locals. *)
Definition visitOption (curValue prevValue : string) (userIsAddingChars : bool)
    (index : nat) (option : LionOption) (st : LionCombobox * Locals)
  : Completion (LionOption * (LionCombobox * Locals)) :=
  let '(this, loc) := st in
  (* [1] *)
  let option := unmatched curValue prevValue option in
  (* [2] *)
  if negb (truthy curValue) then mret (option, (this, push index loc))
  else
    (* [3] *)
    let option := withoutA11y option in
    (* [4] *)
    let show := filterOptionCondition this option curValue in
    '(option, loc) ←
      (if show then
         let loc := push index loc in
         option ← matched curValue option;
         mret (option, loc)
       else mret (option, loc));
    (* [5] *)
    if beginsWith option curValue && negb (hasAutoFilled loc) && show
       && userIsAddingChars
    then
      mret (option, (completeInline index option this, set_hasAutoFilled true loc))
    else mret (option, (this, loc)).

(** [formElements.forEach((option, index) => ...)], from [index] on. *)
Fixpoint forEachOption
    (body : nat -> LionOption -> LionCombobox * Locals ->
            Completion (LionOption * (LionCombobox * Locals)))
    (index : nat) (options : list LionOption) (st : LionCombobox * Locals)
  : Completion (list LionOption * (LionCombobox * Locals)) :=
  match options with
  | [] => mret ([], st)
  | option :: rest =>
      '(option, st) ← body index option st;
      '(rest, st) ← forEachOption body (S index) rest st;
      mret (option :: rest, st)
  end.

(** Step [6] on one visible option. *)
Definition enableOption (idx total : nat) (option : LionOption) : LionOption :=
  LionOption.with_view
    (LionOption.set_disabled false
       (LionOption.setAttribute "aria-setsize" (ofNat total)
          (LionOption.setAttribute "aria-posinset" (ofNat (idx + 1))
             (LionOption.view option)))) option.

(** [visibleOptions.forEach((option, idx) => ...)], from [idx] on; every
    reference is followed into [options]. *)
Fixpoint forEachVisible (refs : list nat) (idx total : nat)
    (options : list LionOption) : list LionOption :=
  match refs with
  | [] => options
  | ref :: rest =>
      forEachVisible rest (S idx) total (alter (enableOption idx total) ref options)
  end.

(** Steps [1] to [5] over all options: the combobox with its options as
    the first loop leaves them, and the collected [visibleOptions]. *)
Definition collectVisibleOptions (this : LionCombobox) (curValue prevValue : string)
  : Completion (LionCombobox * list nat) :=
  let userIsAddingChars :=
    String.length prevValue <? String.length curValue in
  '(options, (this, loc)) ←
    forEachOption (visitOption curValue prevValue userIsAddingChars) 0
      (formElements this)
      (this, {| visibleOptions := []; hasAutoFilled := false |});
  mret (set_formElements options this, visibleOptions loc).

Definition updatePopper (this : LionCombobox) : LionCombobox :=
  match _overlayCtrl this with
  | Some ctrl =>
      match _popper ctrl with
      | Some popper =>
          set__overlayCtrl
            (Some {| contentNode := contentNode ctrl;
                     _popper := Some {| updateCalls := S (updateCalls popper) |} |})
            this
      | None => this
      end
  | None => this
  end.

Definition _handleAutocompletion (this : LionCombobox) (curValue prevValue : string)
  : Completion LionCombobox :=
  if String.eqb (autocomplete this) "none" then mret this
  else
    '(this, visibleOptions) ← collectVisibleOptions this curValue prevValue;
    (* [6] *)
    let this :=
      set_formElements
        (forEachVisible visibleOptions 0 (length visibleOptions)
           (formElements this)) this in
    let selectionStart := selectionStart (_inputNode this) in
    let this :=
      set___prevCboxValueNonSelected (slice0 curValue selectionStart) this in
    mret (updatePopper this).

Definition updated (changedProperties : PropertyValues) (this : LionCombobox)
  : Completion LionCombobox :=
  let this := super_updated changedProperties this in
  let this :=
    if has "autocomplete" changedProperties then
      set__inputNode
        (input_with_elem
           (setAttribute "aria-autocomplete" (autocomplete this)
              (input_elem (_inputNode this))) (_inputNode this)) this
    else this in
  let this :=
    if has "disabled" changedProperties then
      set_hostAttributes
        (<["aria-disabled" := ofBool (disabled this)]> (hostAttributes this)) this
    else this in
  this ←
    (if has "__shouldAutocompleteNextUpdate" changedProperties
        && __shouldAutocompleteNextUpdate this then
       this ← _handleAutocompletion this (__cboxInputValue this)
                (__prevCboxValueNonSelected this);
       mret (set___shouldAutocompleteNextUpdate false this)
     else mret this);
  mret (match _selectionDisplayNode this with
        | Some node =>
            set__selectionDisplayNode
              (Some (onComboboxElementUpdated changedProperties node)) this
        | None => this
        end).

Definition __setupCombobox (this : LionCombobox) : Completion LionCombobox :=
  node ← deref (_comboboxNode this);
  let node := setAttribute "role" "combobox" node in
  let node := setAttribute "aria-haspopup" "listbox" node in
  let node := setAttribute "aria-expanded" "false" node in
  let node := setAttribute "aria-owns" (elem_id (_listboxNode this)) node in
  let this := set__comboboxNode (Some node) this in
  let input := input_elem (_inputNode this) in
  let input := setAttribute "aria-autocomplete" (autocomplete this) input in
  let input := setAttribute "aria-controls" (elem_id (_listboxNode this)) input in
  let input := setAttribute "aria-labelledby" (elem_id (_labelNode this)) input in
  let input := addEventListener "keydown" listener_listboxOnKeyDown input in
  let input := addEventListener "input" listener_textboxOnInput input in
  mret (set__inputNode (input_with_elem input (_inputNode this)) this).

Definition __teardownCombobox (this : LionCombobox) : LionCombobox :=
  let input := input_elem (_inputNode this) in
  let input := removeEventListener "keydown" listener_listboxOnKeyDown input in
  let input := removeEventListener "input" listener_textboxOnInput input in
  set__inputNode (input_with_elem input (_inputNode this)) this.

Definition _textboxOnInput (ev : InputEvent) (this : LionCombobox) : LionCombobox :=
  set___shouldAutocompleteNextUpdate true
    (set___cboxInputValue (input_target_value ev) this).

Definition __syncCheckedWithTextboxOnInteraction (this : LionCombobox)
  : Completion LionCombobox :=
  if negb (multipleChoice this) then
    checked ← deref (at_index (formElements this) (checkedIndex this));
    let this :=
      set__inputNode
        (input_with_value (LionOption.value checked) (_inputNode this)) this in
    mret (set_opened false this)
  else mret this.

Definition _listboxOnClick (ev : MouseEvent) (this : LionCombobox)
  : Completion LionCombobox :=
  let this := super__listboxOnClick ev this in
  let this := set__inputNode (focus (_inputNode this)) this in
  __syncCheckedWithTextboxOnInteraction this.

Definition __setComboboxDisabledAndReadOnly (this : LionCombobox) : LionCombobox :=
  match _comboboxNode this with
  | Some node =>
      let node := setAttribute "disabled" (ofBool (disabled this)) node in
      let node := setAttribute "readonly" (ofBool (readOnly this)) node in
      set__comboboxNode (Some node) this
  | None => this
  end.

Definition __initFilterListbox (this : LionCombobox) : Completion LionCombobox :=
  _handleAutocompletion this (__cboxInputValue this)
    (__prevCboxValueNonSelected this).

Definition _setupOverlayCtrl (this : LionCombobox) : Completion LionCombobox :=
  let this := super__setupOverlayCtrl this in
  this ← __initFilterListbox this;
  __setupCombobox this.

Definition __showOverlay (ev : KeyboardEvent) (this : LionCombobox) : LionCombobox :=
  if String.eqb (key ev) "Tab" || String.eqb (key ev) "Esc"
     || String.eqb (key ev) "Enter" || __blockListShow this
  then this
  else set_opened true this.

Definition _setupOpenCloseListeners (this : LionCombobox) : Completion LionCombobox :=
  let this := super__setupOpenCloseListeners this in
  node ← deref (_overlayInvokerNode this);
  mret (set__comboboxNode
          (Some (addEventListener "keyup" listener_showOverlay node)) this).

Definition _teardownOpenCloseListeners (this : LionCombobox)
  : Completion LionCombobox :=
  let this := super__teardownOpenCloseListeners this in
  node ← deref (_overlayInvokerNode this);
  mret (set__comboboxNode
          (Some (removeEventListener "keyup" listener_showOverlay node)) this).

Definition _onChildActiveChanged (ev : ActiveChangedEvent) (this : LionCombobox)
  : LionCombobox :=
  let this := super__onChildActiveChanged ev this in
  if target_active ev then
    set__inputNode
      (input_with_elem
         (setAttribute "aria-activedescendant" (target_id ev)
            (input_elem (_inputNode this))) (_inputNode this)) this
  else this.

Definition _listboxOnKeyDown (ev : KeyboardEvent) (this : LionCombobox)
  : Completion LionCombobox :=
  let this := super__listboxOnKeyDown ev this in
  if String.eqb (key ev) "Escape" then
    let this := set_opened false this in
    let this := set___shouldAutocompleteNextUpdate true this in
    let this := set__inputNode (input_with_value "" (_inputNode this)) this in
    mret (set___cboxInputValue "" this)
  else if String.eqb (key ev) "Enter" then
    __syncCheckedWithTextboxOnInteraction this
  else mret this.

End methods.

(** [requestUpdateInternal] goes through the base class as well. *)
Class SuperclassUpdates := {
  super_requestUpdateInternal : string -> JsValue -> LionCombobox -> LionCombobox;
}.

Section more_methods.
Context `{!SuperclassUpdates}.

Definition requestUpdateInternal (name : string) (oldValue : JsValue)
    (this : LionCombobox) : LionCombobox :=
  let this := super_requestUpdateInternal name oldValue this in
  if String.eqb name "disabled" || String.eqb name "readOnly"
  then __setComboboxDisabledAndReadOnly this
  else this.

End more_methods.

(** ** A host and a page to run the methods on *)

Module Example.

(** The first occurrence of [pattern] in [html], letter case ignored, put
    between [<b>] and [</b>]; [html] itself when there is none. *)
Fixpoint boldFirstOccurrence (html pattern : string) : string :=
  if String.prefix (toLowerCase pattern) (toLowerCase html) then
    "<b>" +:+ String.substring 0 (String.length pattern) html +:+ "</b>"
    +:+ String.substring (String.length pattern)
          (String.length html - String.length pattern) html
  else match html with
       | EmptyString => EmptyString
       | String c html' => String c (boldFirstOccurrence html' pattern)
       end.

Definition isLetterDigitOrSpace (c : ascii) : bool :=
  let n := nat_of_ascii c in
  (n =? 32) || ((48 <=? n) && (n <=? 57)) || ((65 <=? n) && (n <=? 90))
  || ((97 <=? n) && (n <=? 122)).

Fixpoint allUnits (p : ascii -> bool) (s : string) : bool :=
  match s with
  | EmptyString => true
  | String c s' => p c && allUnits p s'
  end.

(** An engine for patterns made of letters, digits and spaces, which
    stand for themselves in a regular expression.  It takes no other
    pattern. *)
#[export] Instance literalEngine : RegExpEngine :=
  {| replaceFirstMatchWithBold html pattern :=
       if allUnits isLetterDigitOrSpace pattern
       then Normal (boldFirstOccurrence html pattern)
       else Throw SyntaxError |}.

(** Base classes that leave the combobox as it is. *)
#[export] Instance idleSuperclass : Superclass :=
  {| super_connectedCallback this := this;
     super_updated _ this := this;
     super__listboxOnClick _ this := this;
     super__listboxOnKeyDown _ this := this;
     super__onChildActiveChanged _ this := this;
     super__setupOverlayCtrl this := this;
     super__setupOpenCloseListeners this := this;
     super__teardownOpenCloseListeners this := this |}.

Definition element (id : string) : HTMLElement :=
  {| elem_id := id; attributes := ∅; listeners := [] |}.

Definition plainOption (id choiceValue : string) : LionOption :=
  {| LionOption.id := id;
     LionOption.choiceValue := choiceValue;
     LionOption.value := choiceValue;
     LionOption.active := false;
     LionOption.view :=
       {| LionOption.disabled := false;
          LionOption.innerHTML := choiceValue;
          LionOption.__originalInnerHTML := None;
          LionOption.style_display := "";
          LionOption.attrs := ∅ |};
     LionOption.onFilterUnmatch := None;
     LionOption.onFilterMatch := None |}.

Definition fruits : list LionOption :=
  [plainOption "o1" "Pear"; plainOption "o2" "Apple"; plainOption "o3" "apricot"].

(** A freshly constructed combobox ([autocomplete] 'both', [matchMode]
    'all', both cached values empty) with three options, none checked and
    none active, and no [selection-display] element. *)
Definition combobox : LionCombobox :=
  {| autocomplete := "both"; matchMode := "all";
     __shouldAutocompleteNextUpdate := false;
     __cboxInputValue := ""; __prevCboxValueNonSelected := "";
     __blockListShow := false;
     disabled := false; readOnly := false; multipleChoice := false;
     opened := false; activeIndex := (-1)%Z; checkedIndex := (-1)%Z;
     formElements := fruits;
     hostAttributes := ∅;
     _inputNode := {| input_elem := element "input"; value := "";
                      selectionStart := 0; selectionEnd := 0;
                      focused := false |};
     _comboboxNode := Some (element "combobox");
     _selectionDisplayNode := None;
     _labelNode := element "label";
     listboxSlotChild := element "listbox";
     _overlayCtrl := None |}.

(** The same element with other values of its two public properties. *)
Definition configured (autocompleteValue matchModeValue : string)
    (c : LionCombobox) : LionCombobox :=
  {| autocomplete := autocompleteValue; matchMode := matchModeValue;
     __shouldAutocompleteNextUpdate := __shouldAutocompleteNextUpdate c;
     __cboxInputValue := __cboxInputValue c;
     __prevCboxValueNonSelected := __prevCboxValueNonSelected c;
     __blockListShow := __blockListShow c; disabled := disabled c;
     readOnly := readOnly c; multipleChoice := multipleChoice c;
     opened := opened c; activeIndex := activeIndex c;
     checkedIndex := checkedIndex c; formElements := formElements c;
     hostAttributes := hostAttributes c; _inputNode := _inputNode c;
     _comboboxNode := _comboboxNode c;
     _selectionDisplayNode := _selectionDisplayNode c;
     _labelNode := _labelNode c; listboxSlotChild := listboxSlotChild c;
     _overlayCtrl := _overlayCtrl c |}.

(** The same combobox after the user typed [text] at the end of the text
    box. *)
Definition typed (text : string) (this : LionCombobox) : LionCombobox :=
  let input := input_with_value text (_inputNode this) in
  let input := input_with_selectionStart (String.length text) input in
  let input := input_with_selectionEnd (String.length text) input in
  _textboxOnInput {| input_target_value := text |} (set__inputNode input this).

(** The same element with the option at [index] reported as checked. *)
Definition withChecked (index : Z) (c : LionCombobox) : LionCombobox :=
  {| autocomplete := autocomplete c; matchMode := matchMode c;
     __shouldAutocompleteNextUpdate := __shouldAutocompleteNextUpdate c;
     __cboxInputValue := __cboxInputValue c;
     __prevCboxValueNonSelected := __prevCboxValueNonSelected c;
     __blockListShow := __blockListShow c; disabled := disabled c;
     readOnly := readOnly c; multipleChoice := multipleChoice c;
     opened := opened c; activeIndex := activeIndex c;
     checkedIndex := index; formElements := formElements c;
     hostAttributes := hostAttributes c; _inputNode := _inputNode c;
     _comboboxNode := _comboboxNode c;
     _selectionDisplayNode := _selectionDisplayNode c;
     _labelNode := _labelNode c; listboxSlotChild := listboxSlotChild c;
     _overlayCtrl := _overlayCtrl c |}.

#[export] Instance idleSuperclassUpdates : SuperclassUpdates :=
  {| super_requestUpdateInternal _ _ this := this |}.

End Example.

(** ** Notions the statements use *)

(** The references the first loop collects, from [index] on: every option
    when nothing is typed, the options that pass the filter otherwise. *)
Fixpoint visibleFrom (this : LionCombobox) (curValue : string) (index : nat)
    (options : list LionOption) : list nat :=
  match options with
  | [] => []
  | option :: rest =>
      (if negb (truthy curValue) || filterOptionCondition this option curValue
       then [index] else [])
      ++ visibleFrom this curValue (S index) rest
  end.

(** [this'] is [this] but for its input node and its active index, and the
    input node is the same element with the same focus. *)
Definition onlyTextboxAndActiveChanged (this this' : LionCombobox) : Prop :=
  this' = set_activeIndex (activeIndex this') (set__inputNode (_inputNode this') this)
  /\ input_elem (_inputNode this') = input_elem (_inputNode this)
  /\ focused (_inputNode this') = focused (_inputNode this).

(** The event types for which this class itself, not a base class, has
    registered a listener on the input node or on the combobox node. *)
Definition isOwnListener (r : string * Listener) : bool :=
  match r.2 with listener_inherited _ => false | _ => true end.

Definition ownListenedTypes (this : LionCombobox) : list string :=
  (filter (fun r => isOwnListener r = true)
     (listeners (input_elem (_inputNode this))
      ++ from_option listeners [] (_comboboxNode this))).*1.

(** This class has listeners for the event types in [allowed] only. *)
Definition listensOnlyTo (allowed : list string) (this : LionCombobox) : Prop :=
  forall type, type ∈ ownListenedTypes this -> type ∈ allowed.

(** What steps [1] to [4] of a visit make of one option: the visit's
    effect on the option alone. *)
Definition optionAfterVisit `{!RegExpEngine} (this : LionCombobox)
    (curValue prevValue : string) (option : LionOption) : Completion LionOption :=
  if negb (truthy curValue) then mret (unmatched curValue prevValue option)
  else
    let option := withoutA11y (unmatched curValue prevValue option) in
    if filterOptionCondition this option curValue
    then matched curValue option
    else mret option.

(** An option with neither [onFilterUnmatch] nor [onFilterMatch] of its
    own. *)
Definition isPlain (option : LionOption) : Prop :=
  LionOption.onFilterUnmatch option = None
  /\ LionOption.onFilterMatch option = None.

(** Two options that differ in their [view] at most. *)
Definition sameElement (option option' : LionOption) : Prop :=
  option' = LionOption.with_view (LionOption.view option') option.

(** The markup step [1] of the class puts back. *)
Definition restoredMarkup (option : LionOption) : string :=
  match LionOption.__originalInnerHTML (LionOption.view option) with
  | Some original =>
      if truthy original then original
      else LionOption.innerHTML (LionOption.view option)
  | None => LionOption.innerHTML (LionOption.view option)
  end.

(** * Properties *)

(** ** Facts about strings *)

Section string_facts.

Lemma append_cons c (s t : string) : String c s +:+ t = String c (s +:+ t).
Proof. reflexivity. Qed.

Lemma append_nil_l (s : string) : "" +:+ s = s.
Proof. reflexivity. Qed.

Lemma toLowerCase_length s : String.length (toLowerCase s) = String.length s.
Proof. induction s as [|c s IH]; simpl; [done | by rewrite IH]. Qed.

Lemma toLowerCase_app s t :
  toLowerCase (s +:+ t) = toLowerCase s +:+ toLowerCase t.
Proof.
  induction s as [|c s IH]; [done|].
  rewrite append_cons. simpl. by rewrite IH.
Qed.

(** A split of the lowered string comes from a split of the string. *)
Lemma toLowerCase_app_inv s x y :
  toLowerCase s = x +:+ y ->
  exists a b, s = a +:+ b /\ toLowerCase a = x /\ toLowerCase b = y.
Proof.
  revert s. induction x as [|c x IH]; intros s Hs.
  - exists "", s. by rewrite !append_nil_l in *.
  - destruct s as [|d s]; [done|].
    rewrite append_cons in Hs. simpl in Hs.
    injection Hs as Hc Hs.
    destruct (IH _ Hs) as (a & b & -> & Ha & Hb).
    exists (String d a), b. rewrite append_cons. simpl.
    by rewrite Hc, Ha.
Qed.

Lemma prefix_spec p s :
  String.prefix p s = true <-> exists t, s = p +:+ t.
Proof.
  revert s. induction p as [|c p IH]; intros s.
  - destruct s; (split; [intros _; eexists; reflexivity | done]).
  - destruct s as [|d s]; simpl.
    + split; [done | intros [t Ht]; by rewrite append_cons in Ht].
    + destruct (Ascii.ascii_dec c d) as [->|Hne].
      * rewrite IH. split; intros [t Ht]; exists t.
        -- by rewrite append_cons, Ht.
        -- rewrite append_cons in Ht. by injection Ht.
      * split; [done|]. intros [t Ht].
        rewrite append_cons in Ht. injection Ht as Hd _. by destruct Hne.
Qed.

Lemma indexOfFrom_unfold pos hay needle :
  indexOfFrom pos hay needle =
  if String.prefix needle hay then Z.of_nat pos
  else match hay with
       | EmptyString => (-1)%Z
       | String _ hay' => indexOfFrom (S pos) hay' needle
       end.
Proof. by destruct hay. Qed.

Lemma indexOfFrom_lower pos hay needle :
  (indexOfFrom pos hay needle = -1 \/ Z.of_nat pos <= indexOfFrom pos hay needle)%Z.
Proof.
  revert pos. induction hay as [|c hay IH]; intros pos;
    rewrite indexOfFrom_unfold; destruct (String.prefix needle _); try lia.
  destruct (IH (S pos)); lia.
Qed.

(** [indexOf] finds the needle exactly when it is a factor. *)
Lemma indexOfFrom_found pos hay needle :
  (indexOfFrom pos hay needle > -1)%Z <->
  exists pre post, hay = pre +:+ needle +:+ post.
Proof.
  revert pos. induction hay as [|c hay IH]; intros pos;
    rewrite indexOfFrom_unfold;
    destruct (String.prefix needle _) eqn:Hp.
  - apply prefix_spec in Hp as [t Ht]. split; [|lia].
    intros _. exists "", t. by rewrite append_nil_l.
  - split; [lia|]. intros (pre & post & H).
    destruct pre; [|by rewrite append_cons in H].
    rewrite append_nil_l in H.
    assert (String.prefix needle "" = true) as Hq
        by (apply prefix_spec; eauto).
    congruence.
  - apply prefix_spec in Hp as [t Ht]. split; [|lia].
    intros _. exists "", t. by rewrite append_nil_l.
  - rewrite IH. split.
    + intros (pre & post & ->). exists (String c pre), post.
      by rewrite append_cons.
    + intros (pre & post & H). destruct pre as [|d pre].
      * rewrite append_nil_l in H.
        assert (String.prefix needle (String c hay) = true) as Hq
            by (apply prefix_spec; eauto).
        congruence.
      * rewrite append_cons in H. injection H as _ H. eauto.
Qed.

(** [indexOf] answers 0 exactly when the needle is a leading factor. *)
Lemma indexOf_zero hay needle :
  indexOf hay needle = 0%Z <-> exists post, hay = needle +:+ post.
Proof.
  unfold indexOf. rewrite <- prefix_spec, indexOfFrom_unfold.
  destruct (String.prefix needle hay); [done|].
  split; [|done]. destruct hay as [|c hay]; [lia|]. intros H.
  destruct (indexOfFrom_lower 1 hay needle); lia.
Qed.

End string_facts.

(** ** Matching an option against the typed text *)

Section matching.

Lemma indexOf_contains hay needle :
  (-1 <? indexOf (toLowerCase hay) (toLowerCase needle))%Z = true
  <-> containsIgnoringCase hay needle.
Proof.
  rewrite Z.ltb_lt. unfold indexOf, containsIgnoringCase, equalIgnoringCase.
  split.
  - intros Hidx.
    assert (indexOfFrom 0 (toLowerCase hay) (toLowerCase needle) > -1)%Z
      as Hgt by lia.
    apply indexOfFrom_found in Hgt as (x & z & Hsplit).
    apply toLowerCase_app_inv in Hsplit as (pre & rest & -> & Hpre & Hrest).
    apply toLowerCase_app_inv in Hrest as (mid & post & -> & Hmid & Hpost).
    by exists pre, mid, post.
  - intros (pre & mid & post & -> & Hmid).
    cut (indexOfFrom 0 (toLowerCase (pre +:+ mid +:+ post))
           (toLowerCase needle) > -1)%Z; [lia|].
    apply indexOfFrom_found.
    exists (toLowerCase pre), (toLowerCase post).
    by rewrite !toLowerCase_app, Hmid.
Qed.

Lemma indexOf_beginsWith hay needle :
  (indexOf (toLowerCase hay) (toLowerCase needle) =? 0)%Z = true
  <-> beginsWithIgnoringCase hay needle.
Proof.
  rewrite Z.eqb_eq, indexOf_zero.
  unfold beginsWithIgnoringCase, equalIgnoringCase. split.
  - intros [z Hsplit].
    apply toLowerCase_app_inv in Hsplit as (mid & post & -> & Hmid & _).
    by exists mid, post.
  - intros (mid & post & -> & Hmid). exists (toLowerCase post).
    by rewrite toLowerCase_app, Hmid.
Qed.

(** An option that begins with the typed text passes the filter in
    either match mode. *)
Lemma beginsWith_filterOptionCondition this option curValue :
  (indexOf (toLowerCase (LionOption.choiceValue option))
     (toLowerCase curValue) =? 0)%Z = true ->
  filterOptionCondition this option curValue = true.
Proof.
  unfold filterOptionCondition. intros Hz%Z.eqb_eq. rewrite Hz.
  by destruct (String.eqb _ _).
Qed.

End matching.



(** ** [autocomplete] 'none' *)

(** C10. With [autocomplete] equal to 'none', [_handleAutocompletion]
    returns at once and the element is exactly as it was: every option
    (its [disabled] flag, display style, markup and attributes), the text
    box with its value and selection, the active index and the cached
    previous value. *)
Theorem handleAutocompletion_none `{!RegExpEngine} (this : LionCombobox)
    (curValue prevValue : string) :
  autocomplete this = "none" ->
  _handleAutocompletion this curValue prevValue = Normal this.
Proof. intros Hnone. unfold _handleAutocompletion. by rewrite Hnone. Qed.

Lemma handleAutocompletion_none_witness :
  @_handleAutocompletion Example.literalEngine
    (Example.typed "ap" (Example.configured "none" "all" Example.combobox)) "ap" ""
  = Normal (Example.typed "ap" (Example.configured "none" "all" Example.combobox)).
Proof. apply handleAutocompletion_none. reflexivity. Defined.

(** ** Absent nodes, and selecting with nothing checked *)

Section absent_nodes.
Context `{!RegExpEngine} `{!Superclass}.

(** Without a [selection-display] element [connectedCallback] does what
    the base class does and nothing more. *)
Lemma connectedCallback_without_selectionDisplay this :
  _selectionDisplayNode (super_connectedCallback this) = None ->
  connectedCallback this = super_connectedCallback this.
Proof. unfold connectedCallback. by intros ->. Qed.

(** Without a combobox node [__setComboboxDisabledAndReadOnly] does
    nothing. *)
Lemma setComboboxDisabledAndReadOnly_without_node this :
  _comboboxNode this = None ->
  __setComboboxDisabledAndReadOnly this = this.
Proof. unfold __setComboboxDisabledAndReadOnly. by intros ->. Qed.

(** In single-choice mode, with [checkedIndex] pointing at no option,
    [formElements[checkedIndex]] is [undefined] and reading its [value]
    throws. *)
Lemma syncChecked_nothing_checked this :
  multipleChoice this = false ->
  at_index (formElements this) (checkedIndex this) = None ->
  __syncCheckedWithTextboxOnInteraction this = Throw TypeError.
Proof.
  unfold __syncCheckedWithTextboxOnInteraction. by intros -> ->.
Qed.

Lemma syncChecked_checked this option :
  multipleChoice this = false ->
  at_index (formElements this) (checkedIndex this) = Some option ->
  exists this',
    __syncCheckedWithTextboxOnInteraction this = Normal this'
    /\ value (_inputNode this') = LionOption.value option
    /\ opened this' = false.
Proof.
  unfold __syncCheckedWithTextboxOnInteraction. intros -> ->. simpl. eauto.
Qed.

End absent_nodes.

Section runs_without_checked_option.
#[local] Existing Instance Example.literalEngine.
#[local] Existing Instance Example.idleSuperclass.

(** C5, at the input where it fails: a single-choice combobox none of whose
    options is checked ([checkedIndex] is -1).  Selecting by Enter or by a
    click ends in a [TypeError]. *)
Theorem select_with_nothing_checked_throws :
  multipleChoice Example.combobox = false
  /\ checkedIndex Example.combobox = (-1)%Z
  /\ __syncCheckedWithTextboxOnInteraction Example.combobox = Throw TypeError
  /\ _listboxOnKeyDown {| key := "Enter" |} Example.combobox = Throw TypeError
  /\ _listboxOnClick click Example.combobox = Throw TypeError.
Proof. repeat split. Qed.

End runs_without_checked_option.

(** ** Escape *)

Section escape.
Context `{!RegExpEngine} `{!Superclass}.

(** The 'Escape' keydown closes the listbox and clears both values. *)
Lemma listboxOnKeyDown_Escape this :
  exists this',
    _listboxOnKeyDown {| key := "Escape" |} this = Normal this'
    /\ opened this' = false
    /\ value (_inputNode this') = ""
    /\ __cboxInputValue this' = ""
    /\ __shouldAutocompleteNextUpdate this' = true.
Proof. unfold _listboxOnKeyDown. simpl. eauto 6. Qed.

(** The keyup handler lets the key named 'Escape' through: it compares
    with 'Esc'. *)
Lemma showOverlay_Escape this :
  __blockListShow this = false ->
  opened (__showOverlay {| key := "Escape" |} this) = true.
Proof. unfold __showOverlay. simpl. by intros ->. Qed.

Lemma showOverlay_Esc this :
  __showOverlay {| key := "Esc" |} this = this.
Proof. reflexivity. Qed.

End escape.

Section runs_of_escape.
#[local] Existing Instance Example.literalEngine.
#[local] Existing Instance Example.idleSuperclass.

(** C8, at the input where it fails: one press of the Escape key on an
    open combobox.  Its keydown closes the listbox and clears both values;
    its keyup, handled by [__showOverlay], opens the listbox again. *)
Theorem escape_keyup_reopens :
  let this := set_opened true (Example.typed "ap" Example.combobox) in
  exists afterKeydown,
    _listboxOnKeyDown {| key := "Escape" |} this = Normal afterKeydown
    /\ opened afterKeydown = false
    /\ value (_inputNode afterKeydown) = ""
    /\ __cboxInputValue afterKeydown = ""
    /\ opened (__showOverlay {| key := "Escape" |} afterKeydown) = true.
Proof. eexists. repeat split. Qed.

End runs_of_escape.

(** ** ARIA attributes written at set-up and on activation *)

Section aria.
Context `{!RegExpEngine} `{!Superclass}.

Lemma getAttribute_setAttribute name v e :
  getAttribute name (setAttribute name v e) = Some v.
Proof. apply lookup_insert_eq. Qed.

Lemma getAttribute_setAttribute_ne name name' v e :
  name' <> name ->
  getAttribute name (setAttribute name' v e) = getAttribute name e.
Proof. intros Hne. by apply lookup_insert_ne. Qed.

Lemma getAttribute_addEventListener name type l e :
  getAttribute name (addEventListener type l e) = getAttribute name e.
Proof. reflexivity. Qed.

(** With its combobox node in place [__setupCombobox] returns, and the
    attributes are as it wrote them. *)
Lemma setupCombobox_attributes this node :
  _comboboxNode this = Some node ->
  exists this' node',
    __setupCombobox this = Normal this'
    /\ _comboboxNode this' = Some node'
    /\ getAttribute "role" node' = Some "combobox"
    /\ getAttribute "aria-haspopup" node' = Some "listbox"
    /\ getAttribute "aria-expanded" node' = Some "false"
    /\ getAttribute "aria-owns" node' = Some (elem_id (_listboxNode this'))
    /\ getAttribute "aria-autocomplete" (input_elem (_inputNode this'))
       = Some (autocomplete this')
    /\ getAttribute "aria-controls" (input_elem (_inputNode this'))
       = Some (elem_id (_listboxNode this'))
    /\ getAttribute "aria-labelledby" (input_elem (_inputNode this'))
       = Some (elem_id (_labelNode this')).
Proof.
  intros Hnode. unfold __setupCombobox. rewrite Hnode. simpl.
  eexists _, _. split; [reflexivity|]. split; [reflexivity|].
  repeat split; simpl;
    rewrite ?getAttribute_addEventListener;
    repeat (rewrite getAttribute_setAttribute_ne by discriminate);
    apply getAttribute_setAttribute.
Qed.

Lemma setupCombobox_needs_node this this' :
  __setupCombobox this = Normal this' -> is_Some (_comboboxNode this).
Proof.
  unfold __setupCombobox. destruct (_comboboxNode this); [eauto | discriminate].
Qed.

Lemma onChildActiveChanged_active ev this :
  target_active ev = true ->
  getAttribute "aria-activedescendant"
    (input_elem (_inputNode (_onChildActiveChanged ev this)))
  = Some (target_id ev).
Proof.
  intros Hactive. unfold _onChildActiveChanged. rewrite Hactive. simpl.
  apply getAttribute_setAttribute.
Qed.

(** An option that is not active leaves the attribute to the base class. *)
Lemma onChildActiveChanged_inactive ev this :
  target_active ev = false ->
  _onChildActiveChanged ev this = super__onChildActiveChanged ev this.
Proof. intros Hactive. unfold _onChildActiveChanged. by rewrite Hactive. Qed.

End aria.

(** C7. When the overlay is set up ([_setupOverlayCtrl] returns), the
    combobox node carries role 'combobox', aria-haspopup 'listbox',
    aria-expanded 'false' and aria-owns with the listbox node's id, and the
    input node carries aria-autocomplete with the current [autocomplete]
    value, aria-controls with the listbox id and aria-labelledby with the
    label id.  Whenever a child option becomes active, the input node's
    aria-activedescendant is that option's id. *)
Theorem aria_attributes_wired `{!RegExpEngine} `{!Superclass} :
  (forall this this',
      _setupOverlayCtrl this = Normal this' ->
      exists node,
        _comboboxNode this' = Some node
        /\ getAttribute "role" node = Some "combobox"
        /\ getAttribute "aria-haspopup" node = Some "listbox"
        /\ getAttribute "aria-expanded" node = Some "false"
        /\ getAttribute "aria-owns" node = Some (elem_id (_listboxNode this'))
        /\ getAttribute "aria-autocomplete" (input_elem (_inputNode this'))
           = Some (autocomplete this')
        /\ getAttribute "aria-controls" (input_elem (_inputNode this'))
           = Some (elem_id (_listboxNode this'))
        /\ getAttribute "aria-labelledby" (input_elem (_inputNode this'))
           = Some (elem_id (_labelNode this')))
  /\ (forall ev this,
         target_active ev = true ->
         getAttribute "aria-activedescendant"
           (input_elem (_inputNode (_onChildActiveChanged ev this)))
         = Some (target_id ev)).
Proof.
  split; [|apply onChildActiveChanged_active].
  intros this this'. unfold _setupOverlayCtrl.
  destruct (__initFilterListbox _) as [filtered|] eqn:Hfilter; [|discriminate].
  simpl. intros Hsetup.
  destruct (setupCombobox_needs_node _ _ Hsetup) as [node Hnode].
  destruct (setupCombobox_attributes _ _ Hnode) as (that & node' & Hrun & Hrest).
  rewrite Hrun in Hsetup. injection Hsetup as <-. eauto.
Qed.

Section runs_of_setup.
#[local] Existing Instance Example.literalEngine.
#[local] Existing Instance Example.idleSuperclass.

Lemma aria_attributes_wired_witness :
  (exists this' node,
      _setupOverlayCtrl Example.combobox = Normal this'
      /\ _comboboxNode this' = Some node
      /\ getAttribute "role" node = Some "combobox"
      /\ getAttribute "aria-owns" node = Some "listbox"
      /\ getAttribute "aria-autocomplete" (input_elem (_inputNode this')) = Some "both"
      /\ getAttribute "aria-labelledby" (input_elem (_inputNode this')) = Some "label")
  /\ getAttribute "aria-activedescendant"
       (input_elem
          (_inputNode
             (_onChildActiveChanged {| target_id := "o2"; target_active := true |}
                Example.combobox)))
     = Some "o2".
Proof.
  split.
  - destruct (_setupOverlayCtrl Example.combobox) as [this'|] eqn:Hrun;
      [|discriminate Hrun].
    destruct (proj1 aria_attributes_wired _ _ Hrun)
      as (node & Hnode & Hrole & _ & _ & Howns & Hauto & _ & Hlabel).
    exists this', node. repeat split; try assumption.
    + rewrite Howns. injection Hrun as <-. reflexivity.
    + rewrite Hauto. injection Hrun as <-. reflexivity.
    + rewrite Hlabel. injection Hrun as <-. reflexivity.
  - apply (proj2 aria_attributes_wired). reflexivity.
Defined.

End runs_of_setup.

(** ** Listeners *)

Section listeners.
Context `{!RegExpEngine} `{!Superclass}.

Lemma elem_of_addEventListener r type l e :
  r ∈ listeners (addEventListener type l e) <-> r ∈ listeners e \/ r = (type, l).
Proof.
  unfold addEventListener. simpl. case_decide as Hin.
  - split; [by left | intros [?| ->]; done].
  - rewrite elem_of_app, list_elem_of_singleton. done.
Qed.

(** [__setupCombobox] adds the keydown and the input listener to the input
    node, and no listener anywhere else. *)
Lemma setupCombobox_listeners this this' :
  __setupCombobox this = Normal this' ->
  (forall r,
      r ∈ listeners (input_elem (_inputNode this')) <->
      r ∈ listeners (input_elem (_inputNode this))
      \/ r = ("keydown", listener_listboxOnKeyDown)
      \/ r = ("input", listener_textboxOnInput))
  /\ listeners <$> _comboboxNode this' = listeners <$> _comboboxNode this.
Proof.
  unfold __setupCombobox. destruct (_comboboxNode this) as [node|]; [|discriminate].
  simpl. intros [= <-]. split; [|reflexivity].
  intros r. cbn [_inputNode set__inputNode input_elem input_with_elem].
  rewrite !elem_of_addEventListener. cbn [listeners setAttribute]. tauto.
Qed.

(** [_setupOpenCloseListeners] adds, after the base class, the keyup
    listener to the combobox node, and no listener anywhere else. *)
Lemma setupOpenCloseListeners_listeners this this' :
  _setupOpenCloseListeners this = Normal this' ->
  exists node node',
    _comboboxNode (super__setupOpenCloseListeners this) = Some node
    /\ _comboboxNode this' = Some node'
    /\ (forall r, r ∈ listeners node' <->
                  r ∈ listeners node \/ r = ("keyup", listener_showOverlay))
    /\ _inputNode this' = _inputNode (super__setupOpenCloseListeners this).
Proof.
  unfold _setupOpenCloseListeners, _overlayInvokerNode.
  destruct (_comboboxNode _) as [node|] eqn:Hnode; [|discriminate].
  simpl. intros [= <-]. exists node, (addEventListener "keyup" listener_showOverlay node).
  repeat split; try done; apply elem_of_addEventListener.
Qed.

End listeners.


Section runs_of_listeners.
#[local] Existing Instance Example.literalEngine.
#[local] Existing Instance Example.idleSuperclass.



End runs_of_listeners.

(** ** One autocompletion cycle *)

Section cycle.
Context `{!RegExpEngine}.

Lemma onlyTextboxAndActiveChanged_refl this :
  onlyTextboxAndActiveChanged this this.
Proof. by destruct this. Qed.

Lemma onlyTextboxAndActiveChanged_trans this1 this2 this3 :
  onlyTextboxAndActiveChanged this1 this2 ->
  onlyTextboxAndActiveChanged this2 this3 ->
  onlyTextboxAndActiveChanged this1 this3.
Proof.
  intros (H12 & He12 & Hf12) (H23 & He23 & Hf23).
  repeat split; [|congruence|congruence].
  rewrite H23 at 1. rewrite H12 at 1. reflexivity.
Qed.

Lemma completeInline_frame index option this :
  onlyTextboxAndActiveChanged this (completeInline index option this).
Proof.
  unfold completeInline. destruct this.
  by destruct (String.eqb _ _).
Qed.

(** What the frame keeps. *)
Lemma frame_fields this this' :
  onlyTextboxAndActiveChanged this this' ->
  autocomplete this' = autocomplete this
  /\ matchMode this' = matchMode this
  /\ __cboxInputValue this' = __cboxInputValue this
  /\ __prevCboxValueNonSelected this' = __prevCboxValueNonSelected this
  /\ __shouldAutocompleteNextUpdate this' = __shouldAutocompleteNextUpdate this
  /\ disabled this' = disabled this
  /\ hostAttributes this' = hostAttributes this
  /\ formElements this' = formElements this
  /\ _selectionDisplayNode this' = _selectionDisplayNode this
  /\ _comboboxNode this' = _comboboxNode this
  /\ _overlayCtrl this' = _overlayCtrl this.
Proof. intros [-> _]. repeat split. Qed.

Lemma filterOptionCondition_frame this this' option curValue :
  matchMode this' = matchMode this ->
  filterOptionCondition this' option curValue
  = filterOptionCondition this option curValue.
Proof. unfold filterOptionCondition. by intros ->. Qed.

Lemma filterOptionCondition_choiceValue this option option' curValue :
  LionOption.choiceValue option = LionOption.choiceValue option' ->
  filterOptionCondition this option curValue
  = filterOptionCondition this option' curValue.
Proof. unfold filterOptionCondition. by intros ->. Qed.

Lemma beginsWith_choiceValue option option' curValue :
  LionOption.choiceValue option = LionOption.choiceValue option' ->
  beginsWith option curValue = beginsWith option' curValue.
Proof. unfold beginsWith. by intros ->. Qed.

Lemma completeInline_choiceValue index option option' this :
  LionOption.choiceValue option = LionOption.choiceValue option' ->
  completeInline index option this = completeInline index option' this.
Proof. unfold completeInline. by intros ->. Qed.

Lemma matched_choiceValue curValue option marked :
  matched curValue option = Normal marked ->
  LionOption.choiceValue marked = LionOption.choiceValue option.
Proof.
  unfold matched, _onFilterMatch.
  destruct (LionOption.onFilterMatch option); [by intros [= <-]|].
  destruct (replaceFirstMatchWithBold _ _); [by intros [= <-] | done].
Qed.

(** With nothing typed, a visit runs step [1] and collects the option. *)
Lemma visitOption_empty curValue prevValue adding index option this loc :
  truthy curValue = false ->
  visitOption curValue prevValue adding index option (this, loc)
  = Normal (unmatched curValue prevValue option, (this, push index loc)).
Proof. intros Hempty. unfold visitOption. by rewrite Hempty. Qed.

(** With something typed, a visit that returns has collected the option
    exactly if it passes the filter, completed the text box exactly if
    step [5] applies, left a filtered-out option disabled, and never
    changed an option's [choiceValue]. *)
Lemma visitOption_typed curValue prevValue adding index option this loc
    option' this' loc' :
  truthy curValue = true ->
  visitOption curValue prevValue adding index option (this, loc)
  = Normal (option', (this', loc')) ->
  let show := filterOptionCondition this option curValue in
  let fills :=
    beginsWith option curValue && negb (hasAutoFilled loc) && show && adding in
  this' = (if fills then completeInline index option this else this)
  /\ visibleOptions loc'
     = (if show then visibleOptions loc ++ [index] else visibleOptions loc)
  /\ hasAutoFilled loc' = hasAutoFilled loc || fills
  /\ LionOption.choiceValue option' = LionOption.choiceValue option
  /\ (show = false -> LionOption.disabled (LionOption.view option') = true).
Proof.
  intros Htyped. unfold visitOption. rewrite Htyped. cbn [negb].
  set (cleaned := withoutA11y _).
  assert (LionOption.choiceValue cleaned = LionOption.choiceValue option) as Hcv.
  { subst cleaned. unfold unmatched.
    by destruct (LionOption.onFilterUnmatch option). }
  rewrite (filterOptionCondition_choiceValue this cleaned option) by done.
  destruct (filterOptionCondition this option curValue) eqn:Hfilter.
  - destruct (matched curValue cleaned) as [marked|] eqn:Hmarked; [|discriminate].
    apply matched_choiceValue in Hmarked. rewrite Hcv in Hmarked.
    unfold mbind, Completion_bind, mret, Completion_ret.
    cbn [hasAutoFilled push].
    rewrite (beginsWith_choiceValue marked option) by done.
    destruct (beginsWith option curValue), (hasAutoFilled loc) eqn:Hfilled, adding;
      cbn [andb negb orb]; intros [= <- <- <-];
      rewrite ?(completeInline_choiceValue index marked option) by done;
      cbn [hasAutoFilled visibleOptions push set_hasAutoFilled]; done.
  - unfold mbind, Completion_bind, mret, Completion_ret.
    rewrite !andb_false_r. cbn [andb]. intros [= <- <- <-].
    by rewrite orb_false_r.
Qed.

(** *** The first loop *)

Lemma forEachOption_cons_inv body index option rest st options' st' :
  forEachOption body index (option :: rest) st = Normal (options', st') ->
  exists option' st1 rest',
    body index option st = Normal (option', st1)
    /\ forEachOption body (S index) rest st1 = Normal (rest', st')
    /\ options' = option' :: rest'.
Proof.
  cbn [forEachOption]. unfold mbind, Completion_bind, mret, Completion_ret.
  destruct (body index option st) as [[option' st1]|]; [|discriminate].
  destruct (forEachOption body (S index) rest st1) as [[rest' st2]|] eqn:Hrest;
    [|discriminate].
  intros [= <- <-]. by exists option', st1, rest'.
Qed.

Lemma visibleFrom_frame this this' curValue index options :
  matchMode this' = matchMode this ->
  visibleFrom this' curValue index options = visibleFrom this curValue index options.
Proof.
  intros Hmode. revert index.
  induction options as [|option rest IH]; intros index; [done|].
  cbn [visibleFrom]. by rewrite IH, (filterOptionCondition_frame this this').
Qed.

Lemma visibleFrom_bounds this curValue index options ref :
  ref ∈ visibleFrom this curValue index options ->
  index <= ref < index + length options.
Proof.
  revert index. induction options as [|option rest IH]; intros index.
  - cbn. by intros ?%elem_of_nil.
  - cbn [visibleFrom length]. rewrite elem_of_app. intros [Hhere|Hlater].
    + destruct (_ || _); [|by apply elem_of_nil in Hhere].
      apply list_elem_of_singleton in Hhere. lia.
    + apply IH in Hlater. lia.
Qed.

Lemma visibleFrom_NoDup this curValue index options :
  NoDup (visibleFrom this curValue index options).
Proof.
  revert index. induction options as [|option rest IH]; intros index.
  - constructor.
  - cbn [visibleFrom]. destruct (_ || _); [|apply IH].
    cbn. constructor; [|apply IH].
    intros Hin%visibleFrom_bounds. lia.
Qed.

(** The references collected are those of the options that pass. *)
Lemma elem_of_visibleFrom this curValue index options ref :
  ref ∈ visibleFrom this curValue index options <->
  exists i option,
    ref = index + i /\ options !! i = Some option
    /\ (truthy curValue = false
        \/ filterOptionCondition this option curValue = true).
Proof.
  revert index. induction options as [|option rest IH]; intros index.
  - cbn. split; [by intros ?%elem_of_nil | by intros (i & o & _ & ? & _)].
  - cbn [visibleFrom]. rewrite elem_of_app, IH. split.
    + intros [Hhere|(i & o & -> & Hi & Hpass)].
      * destruct (negb (truthy curValue) || _) eqn:Hpass;
          [|by apply elem_of_nil in Hhere].
        apply list_elem_of_singleton in Hhere as ->.
        exists 0, option. split; [lia|]. split; [done|].
        apply orb_true_iff in Hpass as [Hempty%negb_true_iff|Hshow]; auto.
      * exists (S i), o. split; [lia|]. done.
    + intros ([|i] & o & -> & Hi & Hpass).
      * left. injection Hi as <-.
        replace (negb (truthy curValue) || _) with true.
        -- rewrite Nat.add_0_r. apply list_elem_of_here.
        -- symmetry. apply orb_true_iff.
           destruct Hpass as [-> | ->]; auto.
      * right. exists i, o. split; [lia|]. done.
Qed.

(** A loop over typed text that returns: nothing but the text box and the
    active index changed on the combobox, the options are as many as
    before and keep their [choiceValue], the references collected are
    those of the options that pass the filter, and every option that does
    not pass is disabled. *)
Lemma forEachOption_typed curValue prevValue adding index options this loc
    options' this' loc' :
  truthy curValue = true ->
  forEachOption (visitOption curValue prevValue adding) index options (this, loc)
  = Normal (options', (this', loc')) ->
  onlyTextboxAndActiveChanged this this'
  /\ length options' = length options
  /\ visibleOptions loc'
     = visibleOptions loc ++ visibleFrom this curValue index options
  /\ (forall i option,
         options !! i = Some option ->
         exists option',
           options' !! i = Some option'
           /\ LionOption.choiceValue option' = LionOption.choiceValue option
           /\ (filterOptionCondition this option curValue = false ->
               LionOption.disabled (LionOption.view option') = true)).
Proof.
  intros Htyped. revert index this loc options'.
  induction options as [|option rest IH]; intros index this loc options'.
  - intros [= <- <- <-]. split; [apply onlyTextboxAndActiveChanged_refl|].
    cbn [visibleFrom]. rewrite app_nil_r. repeat split. by intros [|?].
  - intros (option' & [this1 loc1] & rest' & Hvisit & Hrest & ->)%forEachOption_cons_inv.
    apply visitOption_typed in Hvisit as (Hthis1 & Hvis1 & _ & Hcv & Hdis);
      [|done].
    assert (onlyTextboxAndActiveChanged this this1) as Hframe1.
    { rewrite Hthis1. destruct (_ && _);
        [apply completeInline_frame | apply onlyTextboxAndActiveChanged_refl]. }
    destruct (frame_fields _ _ Hframe1) as (_ & Hmode & _).
    apply IH in Hrest as (Hframe & Hlen & Hvis & Hopts).
    split; [by eapply onlyTextboxAndActiveChanged_trans|].
    split; [cbn; by rewrite Hlen|]. split.
    + rewrite Hvis, Hvis1, (visibleFrom_frame this this1) by done.
      cbn [visibleFrom]. rewrite Htyped. cbn [negb orb].
      destruct (filterOptionCondition this option curValue);
        by rewrite <- ?app_assoc.
    + intros [|i] o Hi.
      * injection Hi as <-. exists option'. auto.
      * destruct (Hopts i o Hi) as (o' & Hi' & Hcv' & Hdis').
        exists o'. repeat split; try done.
        intros Hshow. apply Hdis'.
        by rewrite (filterOptionCondition_frame this this1).
Qed.

(** A loop with nothing typed always returns: step [1] ran on every
    option, every option was collected, and the combobox is as it was. *)
Lemma forEachOption_empty curValue prevValue adding index options this loc :
  truthy curValue = false ->
  exists loc',
    forEachOption (visitOption curValue prevValue adding) index options (this, loc)
    = Normal (unmatched curValue prevValue <$> options, (this, loc'))
    /\ visibleOptions loc' = visibleOptions loc ++ seq index (length options)
    /\ hasAutoFilled loc' = hasAutoFilled loc.
Proof.
  intros Hempty. revert index loc.
  induction options as [|option rest IH]; intros index loc.
  - exists loc. cbn. by rewrite app_nil_r.
  - destruct (IH (S index) (push index loc)) as (loc' & Hrun & Hvis & Hfilled).
    exists loc'. cbn [forEachOption]. rewrite visitOption_empty by done.
    unfold mbind, Completion_bind, mret, Completion_ret. cbn beta iota.
    rewrite Hrun. split; [done|]. split; [|done].
    rewrite Hvis. cbn. by rewrite <- app_assoc.
Qed.

(** Once the text box is completed, the rest of the loop leaves the
    combobox alone. *)
Lemma forEachOption_filled curValue prevValue adding index options this loc
    options' this' loc' :
  truthy curValue = true ->
  hasAutoFilled loc = true ->
  forEachOption (visitOption curValue prevValue adding) index options (this, loc)
  = Normal (options', (this', loc')) ->
  this' = this.
Proof.
  intros Htyped. revert index this loc options'.
  induction options as [|option rest IH]; intros index this loc options' Hfilled.
  - by intros [= <- <- <-].
  - intros (option' & [this1 loc1] & rest' & Hvisit & Hrest & ->)%forEachOption_cons_inv.
    apply visitOption_typed in Hvisit as (Hthis1 & _ & Hfilled1 & _); [|done].
    rewrite Hfilled in Hthis1, Hfilled1.
    rewrite andb_false_r in Hthis1. cbn in Hthis1, Hfilled1. subst this1.
    by eapply IH.
Qed.

(** While the user adds characters, the loop completes the text box from
    the first option that begins with the typed text. *)
Lemma forEachOption_completes curValue prevValue index options this loc
    options' this' loc' i option :
  truthy curValue = true ->
  hasAutoFilled loc = false ->
  forEachOption (visitOption curValue prevValue true) index options (this, loc)
  = Normal (options', (this', loc')) ->
  options !! i = Some option ->
  beginsWith option curValue = true ->
  (forall j earlier,
      j < i -> options !! j = Some earlier -> beginsWith earlier curValue = false) ->
  this' = completeInline (index + i) option this.
Proof.
  intros Htyped. revert index this loc options' i.
  induction options as [|first rest IH];
    intros index this loc options' i Hfresh Hrun Hi Hbegins Hfirst; [done|].
  apply forEachOption_cons_inv in Hrun
    as (first' & [this1 loc1] & rest' & Hvisit & Hrest & ->).
  apply visitOption_typed in Hvisit as (Hthis1 & _ & Hfilled1 & _); [|done].
  rewrite Hfresh in Hthis1, Hfilled1. cbn [negb orb] in Hthis1, Hfilled1.
  destruct i as [|i].
  - injection Hi as ->.
    rewrite Hbegins, (beginsWith_filterOptionCondition this option curValue Hbegins)
      in Hthis1, Hfilled1.
    cbn in Hthis1, Hfilled1. subst this1. rewrite Nat.add_0_r.
    by eapply forEachOption_filled.
  - rewrite (Hfirst 0 first) in Hthis1, Hfilled1 by (done || lia).
    cbn in Hthis1, Hfilled1. subst this1.
    replace (index + S i) with (S index + i) by lia.
    eapply IH; try done.
    intros j earlier Hj. apply (Hfirst (S j)). lia.
Qed.

Lemma visibleFrom_empty this curValue index options :
  truthy curValue = false ->
  visibleFrom this curValue index options = seq index (length options).
Proof.
  intros Hempty. revert index.
  induction options as [|option rest IH]; intros index; [done|].
  cbn [visibleFrom]. rewrite Hempty, IH. done.
Qed.

(** Whatever is typed, a loop that returns has changed nothing on the
    combobox but the text box and the active index, kept the number of
    options, and collected the references [visibleFrom] lists. *)
Lemma forEachOption_frame curValue prevValue adding index options this loc
    options' this' loc' :
  forEachOption (visitOption curValue prevValue adding) index options (this, loc)
  = Normal (options', (this', loc')) ->
  onlyTextboxAndActiveChanged this this'
  /\ length options' = length options
  /\ visibleOptions loc'
     = visibleOptions loc ++ visibleFrom this curValue index options.
Proof.
  destruct (truthy curValue) eqn:Htruthy.
  - intros (Hframe & Hlen & Hvis & _)%forEachOption_typed; done.
  - destruct (forEachOption_empty curValue prevValue adding index options this loc
                Htruthy) as (loc1 & -> & Hvis & _).
    intros [= <- <- <-]. split; [apply onlyTextboxAndActiveChanged_refl|].
    by rewrite length_fmap, visibleFrom_empty.
Qed.

(** *** The second loop *)

Lemma forEachVisible_length refs idx total options :
  length (forEachVisible refs idx total options) = length options.
Proof.
  revert idx options. induction refs as [|ref rest IH]; intros idx options;
    [done|].
  cbn [forEachVisible]. by rewrite IH, length_alter.
Qed.

(** An option nobody refers to is left alone. *)
Lemma forEachVisible_lookup_other refs idx total options i :
  i ∉ refs ->
  forEachVisible refs idx total options !! i = options !! i.
Proof.
  revert idx options. induction refs as [|ref rest IH]; intros idx options;
    [done|].
  intros [Hne Hrest]%not_elem_of_cons. cbn [forEachVisible].
  rewrite IH by done. by apply list_lookup_alter_ne.
Qed.

(** The option behind the [k]-th reference gets step [6] with position
    [idx + k]. *)
Lemma forEachVisible_lookup refs idx total options k ref :
  NoDup refs ->
  refs !! k = Some ref ->
  forEachVisible refs idx total options !! ref
  = enableOption (idx + k) total <$> options !! ref.
Proof.
  revert idx options k. induction refs as [|first rest IH];
    intros idx options k Hnodup Hk; [done|].
  apply NoDup_cons in Hnodup as [Hfresh Hnodup]. cbn [forEachVisible].
  destruct k as [|k].
  - injection Hk as ->. rewrite forEachVisible_lookup_other by done.
    by rewrite list_lookup_alter_eq, Nat.add_0_r.
  - cbn in Hk. rewrite (IH _ _ k) by done.
    rewrite list_lookup_alter_ne.
    + by replace (S idx + k) with (idx + S k) by lia.
    + intros ->. apply Hfresh. by eapply list_elem_of_lookup_2.
Qed.

Lemma enableOption_spec idx total option :
  LionOption.getAttribute "aria-posinset" (enableOption idx total option)
  = Some (ofNat (idx + 1))
  /\ LionOption.getAttribute "aria-setsize" (enableOption idx total option)
     = Some (ofNat total)
  /\ LionOption.disabled (LionOption.view (enableOption idx total option)) = false
  /\ LionOption.style_display (LionOption.view (enableOption idx total option))
     = LionOption.style_display (LionOption.view option)
  /\ LionOption.choiceValue (enableOption idx total option)
     = LionOption.choiceValue option.
Proof.
  unfold LionOption.getAttribute, enableOption. cbn. repeat split.
  - rewrite lookup_insert_ne by discriminate. apply lookup_insert_eq.
  - apply lookup_insert_eq.
Qed.

(** *** The whole cycle *)

Lemma updatePopper_fields this :
  formElements (updatePopper this) = formElements this
  /\ _inputNode (updatePopper this) = _inputNode this
  /\ activeIndex (updatePopper this) = activeIndex this
  /\ autocomplete (updatePopper this) = autocomplete this
  /\ disabled (updatePopper this) = disabled this
  /\ hostAttributes (updatePopper this) = hostAttributes this
  /\ _selectionDisplayNode (updatePopper this) = _selectionDisplayNode this
  /\ __prevCboxValueNonSelected (updatePopper this)
     = __prevCboxValueNonSelected this.
Proof.
  unfold updatePopper. destruct (_overlayCtrl this) as [ctrl|]; [|done].
  by destruct (_popper ctrl).
Qed.

(** The cycle returns exactly when its first loop does, and then it is the
    first loop followed by step [6], the cached value and the popper. *)
Lemma handleAutocompletion_unfold this curValue prevValue :
  autocomplete this <> "none" ->
  _handleAutocompletion this curValue prevValue
  = '(this1, refs) ← collectVisibleOptions this curValue prevValue;
    mret (updatePopper
            (set___prevCboxValueNonSelected
               (slice0 curValue (selectionStart (_inputNode this1)))
               (set_formElements
                  (forEachVisible refs 0 (length refs) (formElements this1))
                  this1))).
Proof.
  intros Hnone%String.eqb_neq. unfold _handleAutocompletion. rewrite Hnone.
  unfold mbind, Completion_bind.
  by destruct (collectVisibleOptions _ _ _) as [[this1 refs]|].
Qed.

(** A first loop that returns: what it leaves behind. *)
Lemma collectVisibleOptions_spec this curValue prevValue this1 refs :
  collectVisibleOptions this curValue prevValue = Normal (this1, refs) ->
  refs = visibleFrom this curValue 0 (formElements this)
  /\ length (formElements this1) = length (formElements this)
  /\ exists this0,
      onlyTextboxAndActiveChanged this this0
      /\ this1 = set_formElements (formElements this1) this0
      /\ exists loc,
          forEachOption
            (visitOption curValue prevValue
               (String.length prevValue <? String.length curValue)) 0
            (formElements this)
            (this, {| visibleOptions := []; hasAutoFilled := false |})
          = Normal (formElements this1, (this0, loc)).
Proof.
  unfold collectVisibleOptions, mbind, Completion_bind, mret, Completion_ret.
  destruct (forEachOption _ _ _ _) as [[options [this0 loc]]|] eqn:Hloop;
    [|discriminate].
  intros [= <- <-].
  destruct (forEachOption_frame _ _ _ _ _ _ _ _ _ _ Hloop) as (Hframe & Hlen & Hvis).
  split; [done|]. split; [done|]. exists this0. eauto.
Qed.

(** The cycle returns whenever the host takes the typed text as a pattern
    (and always when nothing is typed). *)
Lemma forEachOption_returns curValue prevValue adding index options st :
  (forall html, exists html',
        replaceFirstMatchWithBold html curValue = Normal html') ->
  exists r,
    forEachOption (visitOption curValue prevValue adding) index options st
    = Normal r.
Proof.
  intros Haccepts. revert index st.
  induction options as [|option rest IH]; intros index st; [by eexists|].
  cbn [forEachOption].
  assert (exists r, visitOption curValue prevValue adding index option st = Normal r)
    as [[option' st1] ->].
  { destruct st as [this loc]. unfold visitOption.
    destruct (negb (truthy curValue)); [by eexists|].
    destruct (filterOptionCondition _ _ _).
    - unfold matched, _onFilterMatch.
      destruct (LionOption.onFilterMatch _).
      + unfold mbind, Completion_bind, mret, Completion_ret.
        destruct (_ && _); by eexists.
      + destruct (Haccepts
                    (LionOption.innerHTML
                       (LionOption.view
                          (withoutA11y (unmatched curValue prevValue option)))))
          as [html' ->].
        unfold mbind, Completion_bind, mret, Completion_ret.
        destruct (_ && _); by eexists.
    - unfold mbind, Completion_bind, mret, Completion_ret.
      destruct (_ && _); by eexists. }
  destruct (IH (S index) st1) as [[rest' st2] Hrest].
  unfold mbind, Completion_bind, mret, Completion_ret. cbn beta iota.
  rewrite Hrest. by eexists.
Qed.

Lemma handleAutocompletion_returns this curValue prevValue :
  (forall html, exists html',
        replaceFirstMatchWithBold html curValue = Normal html') ->
  exists this', _handleAutocompletion this curValue prevValue = Normal this'.
Proof.
  intros Haccepts. unfold _handleAutocompletion.
  destruct (String.eqb _ _); [by eexists|].
  unfold collectVisibleOptions.
  destruct (forEachOption_returns curValue prevValue
              (String.length prevValue <? String.length curValue) 0
              (formElements this)
              (this, {| visibleOptions := []; hasAutoFilled := false |}) Haccepts)
    as [[options [this0 loc]] ->].
  by eexists.
Qed.

Lemma handleAutocompletion_empty_returns this prevValue :
  exists this', _handleAutocompletion this "" prevValue = Normal this'.
Proof.
  unfold _handleAutocompletion. destruct (String.eqb _ _); [by eexists|].
  unfold collectVisibleOptions.
  destruct (forEachOption_empty "" prevValue
              (String.length prevValue <? String.length "") 0
              (formElements this) this
              {| visibleOptions := []; hasAutoFilled := false |} eq_refl)
    as (loc' & -> & _).
  by eexists.
Qed.

(** What a cycle that returns keeps of the combobox. *)
Lemma handleAutocompletion_frame this curValue prevValue this' :
  _handleAutocompletion this curValue prevValue = Normal this' ->
  autocomplete this' = autocomplete this
  /\ disabled this' = disabled this
  /\ hostAttributes this' = hostAttributes this
  /\ input_elem (_inputNode this') = input_elem (_inputNode this)
  /\ _selectionDisplayNode this' = _selectionDisplayNode this
  /\ length (formElements this') = length (formElements this).
Proof.
  destruct (decide (autocomplete this = "none")) as [Hnone|Hnone].
  - unfold _handleAutocompletion. rewrite Hnone. by intros [= <-].
  - rewrite handleAutocompletion_unfold by done.
    unfold mbind, Completion_bind, mret, Completion_ret.
    destruct (collectVisibleOptions _ _ _) as [[this1 refs]|] eqn:Hcollect;
      [|discriminate].
    intros [= <-].
    apply collectVisibleOptions_spec in Hcollect
      as (_ & Hlen & this0 & Hframe & Hthis1 & _).
    destruct (updatePopper_fields
                (set___prevCboxValueNonSelected
                   (slice0 curValue (selectionStart (_inputNode this1)))
                   (set_formElements
                      (forEachVisible refs 0 (length refs) (formElements this1))
                      this1)))
      as (-> & -> & _ & -> & -> & -> & -> & _).
    destruct (frame_fields _ _ Hframe) as (Ha & _ & _ & _ & _ & Hd & Hh & _ & Hs & _).
    destruct Hframe as (_ & Helem & _).
    cbn. rewrite forEachVisible_length, Hlen.
    rewrite Hthis1. cbn. by rewrite Ha, Hd, Hh, Hs, Helem.
Qed.

Lemma truthy_nonempty s : truthy s = true <-> s <> "".
Proof. by destruct s. Qed.

Lemma truthy_empty s : truthy s = false <-> s = "".
Proof. by destruct s. Qed.

(** After a cycle, the option behind the [k]-th collected reference has
    had step [6] applied with position [k]. *)
Lemma handleAutocompletion_visible this curValue prevValue this1 refs k ref :
  autocomplete this <> "none" ->
  collectVisibleOptions this curValue prevValue = Normal (this1, refs) ->
  refs !! k = Some ref ->
  exists this' option1,
    _handleAutocompletion this curValue prevValue = Normal this'
    /\ formElements this1 !! ref = Some option1
    /\ formElements this' !! ref = Some (enableOption k (length refs) option1).
Proof.
  intros Hnone Hcollect Hk.
  rewrite handleAutocompletion_unfold, Hcollect by done.
  apply collectVisibleOptions_spec in Hcollect as (Hrefs & Hlen & _).
  assert (ref < length (formElements this1)) as Hbound.
  { apply list_elem_of_lookup_2 in Hk. rewrite Hrefs in Hk.
    apply visibleFrom_bounds in Hk. lia. }
  apply lookup_lt_is_Some_2 in Hbound as [option1 Hoption1].
  eexists _, option1. split; [reflexivity|]. split; [done|].
  destruct (updatePopper_fields
              (set___prevCboxValueNonSelected
                 (slice0 curValue (selectionStart (_inputNode this1)))
                 (set_formElements
                    (forEachVisible refs 0 (length refs) (formElements this1))
                    this1))) as (-> & _).
  cbn [formElements set___prevCboxValueNonSelected set_formElements].
  rewrite (forEachVisible_lookup refs 0 _ _ k ref), Hoption1; [done| |done].
  rewrite Hrefs. apply visibleFrom_NoDup.
Qed.

(** After a cycle, an option no collected reference points to is as the
    first loop left it. *)
Lemma handleAutocompletion_not_visible this curValue prevValue this1 refs i :
  autocomplete this <> "none" ->
  collectVisibleOptions this curValue prevValue = Normal (this1, refs) ->
  i ∉ refs ->
  exists this',
    _handleAutocompletion this curValue prevValue = Normal this'
    /\ formElements this' !! i = formElements this1 !! i.
Proof.
  intros Hnone Hcollect Hi.
  rewrite handleAutocompletion_unfold, Hcollect by done.
  eexists. split; [reflexivity|].
  destruct (updatePopper_fields
              (set___prevCboxValueNonSelected
                 (slice0 curValue (selectionStart (_inputNode this1)))
                 (set_formElements
                    (forEachVisible refs 0 (length refs) (formElements this1))
                    this1))) as (-> & _).
  cbn [formElements set___prevCboxValueNonSelected set_formElements].
  by apply forEachVisible_lookup_other.
Qed.

(** With nothing typed the first loop runs step [1] on every option and
    collects them all. *)
Lemma collectVisibleOptions_empty this prevValue :
  collectVisibleOptions this "" prevValue
  = Normal (set_formElements (unmatched "" prevValue <$> formElements this) this,
            seq 0 (length (formElements this))).
Proof.
  unfold collectVisibleOptions.
  destruct (forEachOption_empty "" prevValue
              (String.length prevValue <? String.length "") 0
              (formElements this) this
              {| visibleOptions := []; hasAutoFilled := false |} eq_refl)
    as (loc' & -> & Hvis & _).
  unfold mbind, Completion_bind, mret, Completion_ret. cbn beta iota.
  by rewrite Hvis.
Qed.

(** Step [1] of the class hides the option. *)
Lemma unmatched_default_hidden curValue prevValue option :
  LionOption.onFilterUnmatch option = None ->
  LionOption.style_display (LionOption.view (unmatched curValue prevValue option))
  = "none".
Proof. unfold unmatched. by intros ->. Qed.

(** A cycle with an empty text box: every option is collected, numbered
    among all options and enabled; an option without an [onFilterUnmatch]
    of its own is left with [style.display] 'none'. *)
Lemma handleAutocompletion_empty this prevValue :
  autocomplete this <> "none" ->
  exists this',
    _handleAutocompletion this "" prevValue = Normal this'
    /\ forall i option,
        formElements this !! i = Some option ->
        exists option',
          formElements this' !! i = Some option'
          /\ LionOption.getAttribute "aria-posinset" option' = Some (ofNat (i + 1))
          /\ LionOption.getAttribute "aria-setsize" option'
             = Some (ofNat (length (formElements this)))
          /\ LionOption.disabled (LionOption.view option') = false
          /\ (LionOption.onFilterUnmatch option = None ->
              LionOption.style_display (LionOption.view option') = "none").
Proof.
  intros Hnone.
  destruct (handleAutocompletion_empty_returns this prevValue) as [this' Hrun].
  exists this'. split; [done|]. intros i option Hi.
  pose proof (collectVisibleOptions_empty this prevValue) as Hcollect.
  assert (seq 0 (length (formElements this)) !! i = Some i) as Href.
  { apply lookup_seq. split; [done|]. by eapply lookup_lt_Some. }
  destruct (handleAutocompletion_visible _ _ _ _ _ _ _ Hnone Hcollect Href)
    as (that & option1 & Hthat & Hoption1 & Hlookup).
  rewrite Hrun in Hthat. injection Hthat as <-.
  cbn [formElements set_formElements] in Hoption1.
  rewrite list_lookup_fmap, Hi in Hoption1. injection Hoption1 as <-.
  rewrite length_seq in Hlookup.
  eexists. split; [exact Hlookup|].
  destruct (enableOption_spec i (length (formElements this))
              (unmatched "" prevValue option)) as (? & ? & ? & Hdisplay & _).
  repeat split; try done.
  intros Hdefault. rewrite Hdisplay. by apply unmatched_default_hidden.
Qed.

Lemma completeInline_both index option this :
  autocomplete this = "both" ->
  value (_inputNode (completeInline index option this))
  = LionOption.choiceValue option
  /\ selectionStart (_inputNode (completeInline index option this))
     = String.length (__cboxInputValue this)
  /\ selectionEnd (_inputNode (completeInline index option this))
     = String.length (LionOption.choiceValue option)
  /\ activeIndex (completeInline index option this) = Z.of_nat index.
Proof. unfold completeInline. by intros ->. Qed.

End cycle.

(** C3. After a run of [_handleAutocompletion] with [autocomplete] other
    than 'none', every option collected as visible carries aria-posinset
    with its position, counted from 1, among the visible ones and
    aria-setsize with their number, and is not disabled; and when the text
    box is not empty every option that does not match it is disabled. *)
Theorem visible_options_enabled `{!RegExpEngine} (this : LionCombobox)
    (curValue prevValue : string) (this1 : LionCombobox) (refs : list nat) :
  autocomplete this <> "none" ->
  collectVisibleOptions this curValue prevValue = Normal (this1, refs) ->
  exists this',
    _handleAutocompletion this curValue prevValue = Normal this'
    /\ (forall k ref,
           refs !! k = Some ref ->
           exists option',
             formElements this' !! ref = Some option'
             /\ LionOption.getAttribute "aria-posinset" option'
                = Some (ofNat (k + 1))
             /\ LionOption.getAttribute "aria-setsize" option'
                = Some (ofNat (length refs))
             /\ LionOption.disabled (LionOption.view option') = false)
    /\ (curValue <> "" ->
        forall i option,
          formElements this !! i = Some option ->
          filterOptionCondition this option curValue = false ->
          exists option',
            formElements this' !! i = Some option'
            /\ LionOption.disabled (LionOption.view option') = true).
Proof.
  intros Hnone Hcollect.
  assert (exists this', _handleAutocompletion this curValue prevValue = Normal this')
    as [this' Hrun].
  { rewrite handleAutocompletion_unfold, Hcollect by done. by eexists. }
  exists this'. split; [done|]. split.
  - intros k ref Hk.
    destruct (handleAutocompletion_visible _ _ _ _ _ _ _ Hnone Hcollect Hk)
      as (that & option1 & Hthat & _ & Hlookup).
    rewrite Hrun in Hthat. injection Hthat as <-.
    exists (enableOption k (length refs) option1). split; [done|].
    destruct (enableOption_spec k (length refs) option1) as (? & ? & ? & _).
    done.
  - intros Htyped%truthy_nonempty i option Hi Hfilter.
    pose proof Hcollect as Hspec.
    apply collectVisibleOptions_spec in Hspec
      as (Hrefs & _ & this0 & _ & _ & loc & Hloop).
    apply forEachOption_typed in Hloop as (_ & _ & _ & Hoptions); [|done].
    destruct (Hoptions i option Hi) as (option' & Hi' & _ & Hdisabled).
    assert (i ∉ refs) as Hout.
    { rewrite Hrefs. intros (j & other & -> & Hj & Hpass)%elem_of_visibleFrom.
      cbn in Hi. rewrite Hj in Hi. injection Hi as ->.
      destruct Hpass; congruence. }
    destruct (handleAutocompletion_not_visible _ _ _ _ _ _ Hnone Hcollect Hout)
      as (that & Hthat & Hlookup).
    rewrite Hrun in Hthat. injection Hthat as <-.
    exists option'. split; [congruence | auto].
Qed.

Section runs_of_cycle.
#[local] Existing Instance Example.literalEngine.

Lemma visible_options_enabled_witness :
  exists this1 this',
    collectVisibleOptions (Example.typed "ap" Example.combobox) "ap" ""
    = Normal (this1, [1; 2])
    /\ _handleAutocompletion (Example.typed "ap" Example.combobox) "ap" ""
       = Normal this'
    /\ (LionOption.getAttribute "aria-posinset" <$> formElements this' !! 2)
       = Some (Some "2")
    /\ (LionOption.disabled ∘ LionOption.view <$> formElements this' !! 0)
       = Some true.
Proof.
  destruct (collectVisibleOptions (Example.typed "ap" Example.combobox) "ap" "")
    as [[this1 refs]|] eqn:Hcollect; [|discriminate Hcollect].
  assert (refs = [1; 2]) as -> by (injection Hcollect as _ <-; reflexivity).
  destruct (visible_options_enabled
              (Example.typed "ap" Example.combobox) "ap" "" this1 [1; 2])
    as (this' & Hrun & Hvisible & Hhidden);
    [discriminate | exact Hcollect |].
  exists this1, this'. split; [reflexivity|]. split; [exact Hrun|]. split.
  - destruct (Hvisible 1 2 eq_refl) as (option' & Hlookup & Hposinset & _).
    rewrite Hlookup. simpl. rewrite Hposinset. reflexivity.
  - destruct (Hhidden ltac:(discriminate) 0 (Example.plainOption "o1" "Pear")
                eq_refl eq_refl) as (option' & Hlookup & Hdisabled).
    rewrite Hlookup. simpl. rewrite Hdisabled. reflexivity.
Defined.

End runs_of_cycle.

(** C4, at the input where it fails: a cycle on a freshly built combobox
    with an empty text box.  All three options are collected, numbered 1
    to 3 of 3 and enabled, and all three end the cycle with
    [style.display] 'none'. *)
Theorem empty_input_hides_options :
  exists this',
    @_handleAutocompletion Example.literalEngine Example.combobox "" ""
    = Normal this'
    /\ (fun option =>
          (LionOption.style_display (LionOption.view option),
           LionOption.disabled (LionOption.view option),
           LionOption.getAttribute "aria-posinset" option,
           LionOption.getAttribute "aria-setsize" option))
       <$> formElements this'
       = [("none", false, Some "1", Some "3");
          ("none", false, Some "2", Some "3");
          ("none", false, Some "3", Some "3")].
Proof. eexists. split; [reflexivity|]. vm_compute. reflexivity. Qed.



(** ** The update cycle *)

Section update_cycle.
Context `{!RegExpEngine} `{!Superclass}.

(** An update cycle that returns, field by field, against the element as
    [super.updated] left it. *)
Lemma updated_fields changedProperties this this' :
  updated changedProperties this = Normal this' ->
  let this1 := super_updated changedProperties this in
  autocomplete this' = autocomplete this1
  /\ disabled this' = disabled this1
  /\ input_elem (_inputNode this')
     = (if has "autocomplete" changedProperties
        then setAttribute "aria-autocomplete" (autocomplete this1)
               (input_elem (_inputNode this1))
        else input_elem (_inputNode this1))
  /\ hostAttributes this'
     = (if has "disabled" changedProperties
        then <["aria-disabled" := ofBool (disabled this1)]> (hostAttributes this1)
        else hostAttributes this1)
  /\ _selectionDisplayNode this'
     = onComboboxElementUpdated changedProperties <$> _selectionDisplayNode this1.
Proof.
  intros Hrun this1. unfold updated in Hrun. fold this1 in Hrun.
  set (this2 := if has "autocomplete" changedProperties then _ else this1) in Hrun.
  set (this3 := if has "disabled" changedProperties then _ else this2) in Hrun.
  assert (autocomplete this3 = autocomplete this1
          /\ disabled this3 = disabled this1
          /\ input_elem (_inputNode this3)
             = (if has "autocomplete" changedProperties
                then setAttribute "aria-autocomplete" (autocomplete this1)
                       (input_elem (_inputNode this1))
                else input_elem (_inputNode this1))
          /\ hostAttributes this3
             = (if has "disabled" changedProperties
                then <["aria-disabled" := ofBool (disabled this1)]>
                       (hostAttributes this1)
                else hostAttributes this1)
          /\ _selectionDisplayNode this3 = _selectionDisplayNode this1)
    as (Ha3 & Hd3 & He3 & Hh3 & Hs3).
  { subst this3 this2.
    by destruct (has "autocomplete" changedProperties),
                (has "disabled" changedProperties). }
  clearbody this3. clear this2.
  unfold mbind at 1, Completion_bind at 1 in Hrun.
  destruct (if _ && _ then _ else _) as [this4|] eqn:Hcycle; [|discriminate].
  assert (autocomplete this4 = autocomplete this3
          /\ disabled this4 = disabled this3
          /\ hostAttributes this4 = hostAttributes this3
          /\ input_elem (_inputNode this4) = input_elem (_inputNode this3)
          /\ _selectionDisplayNode this4 = _selectionDisplayNode this3)
    as (Ha4 & Hd4 & Hh4 & He4 & Hs4).
  { destruct (_ && _); [|by injection Hcycle as <-].
    unfold mbind, Completion_bind, mret, Completion_ret in Hcycle.
    destruct (_handleAutocompletion _ _ _) as [that|] eqn:Hthat; [|discriminate].
    injection Hcycle as <-.
    by apply handleAutocompletion_frame in Hthat as (? & ? & ? & ? & ? & _). }
  unfold mret, Completion_ret in Hrun. injection Hrun as <-.
  assert (_selectionDisplayNode this1 = _selectionDisplayNode this4) as ->
      by congruence.
  destruct (_selectionDisplayNode this4) eqn:Hnode; cbn; repeat split; congruence.
Qed.

(** Without a [selection-display] element, [updated] notifies nobody. *)
Lemma updated_without_selectionDisplay changedProperties this this' :
  _selectionDisplayNode (super_updated changedProperties this) = None ->
  updated changedProperties this = Normal this' ->
  _selectionDisplayNode this' = None.
Proof.
  intros Hnone (_ & _ & _ & _ & ->)%updated_fields. by rewrite Hnone.
Qed.

End update_cycle.

(** C6. After an update cycle that returns: if [autocomplete] is among the
    changed properties, the input node's aria-autocomplete is the value of
    the property; if [disabled] is, the element's aria-disabled is the
    flag as a string. *)
Theorem updated_mirrors_properties `{!RegExpEngine} `{!Superclass}
    (changedProperties : PropertyValues) (this this' : LionCombobox) :
  updated changedProperties this = Normal this' ->
  (has "autocomplete" changedProperties = true ->
   getAttribute "aria-autocomplete" (input_elem (_inputNode this'))
   = Some (autocomplete this'))
  /\ (has "disabled" changedProperties = true ->
      hostAttributes this' !! "aria-disabled" = Some (ofBool (disabled this'))).
Proof.
  intros (Hauto & Hdisabled & Hinput & Hhost & _)%updated_fields.
  split; intros Hchanged; rewrite Hchanged in *.
  - rewrite Hinput, Hauto. apply getAttribute_setAttribute.
  - rewrite Hhost, Hdisabled. apply lookup_insert_eq.
Qed.

Section runs_of_update.
#[local] Existing Instance Example.literalEngine.
#[local] Existing Instance Example.idleSuperclass.

Lemma updated_mirrors_properties_witness :
  exists this',
    updated {[ "autocomplete" := JsString "both"; "disabled" := JsBoolean true ]}
      (Example.configured "list" "begin" Example.combobox) = Normal this'
    /\ getAttribute "aria-autocomplete" (input_elem (_inputNode this'))
       = Some "list"
    /\ hostAttributes this' !! "aria-disabled" = Some "false".
Proof.
  destruct (updated
              {[ "autocomplete" := JsString "both"; "disabled" := JsBoolean true ]}
              (Example.configured "list" "begin" Example.combobox))
    as [this'|] eqn:Hrun; [|discriminate Hrun].
  destruct (updated_mirrors_properties _ _ _ Hrun) as [Hauto Hdisabled].
  exists this'. split; [reflexivity|]. split.
  - rewrite Hauto by reflexivity. injection Hrun as <-. reflexivity.
  - rewrite Hdisabled by reflexivity. injection Hrun as <-. reflexivity.
Defined.

End runs_of_update.

(** A cycle returns whenever the host takes the typed text as a pattern:
    here, with the literal engine and the text 'ap'. *)
Lemma handleAutocompletion_returns_witness :
  exists this',
    @_handleAutocompletion Example.literalEngine
      (Example.typed "ap" Example.combobox) "ap" "" = Normal this'.
Proof.
  apply (@handleAutocompletion_returns Example.literalEngine).
  intros html. eexists. reflexivity.
Defined.

(** ** More about one cycle: what becomes of each option *)

Section cycle_options.
Context `{!RegExpEngine}.

Lemma sameElement_refl option : sameElement option option.
Proof. by destruct option. Qed.

Lemma sameElement_trans option1 option2 option3 :
  sameElement option1 option2 -> sameElement option2 option3 ->
  sameElement option1 option3.
Proof. unfold sameElement. intros H12 H23. rewrite H23 at 1. by rewrite H12 at 1. Qed.

Lemma sameElement_with_view v option : sameElement option (LionOption.with_view v option).
Proof. reflexivity. Qed.

Lemma sameElement_fields option option' :
  sameElement option option' ->
  LionOption.id option' = LionOption.id option
  /\ LionOption.choiceValue option' = LionOption.choiceValue option
  /\ LionOption.value option' = LionOption.value option
  /\ LionOption.active option' = LionOption.active option
  /\ LionOption.onFilterUnmatch option' = LionOption.onFilterUnmatch option
  /\ LionOption.onFilterMatch option' = LionOption.onFilterMatch option.
Proof. intros ->. repeat split. Qed.

Lemma unmatched_sameElement curValue prevValue option :
  sameElement option (unmatched curValue prevValue option).
Proof. unfold unmatched. by destruct (LionOption.onFilterUnmatch option). Qed.

Lemma matched_sameElement curValue option marked :
  matched curValue option = Normal marked -> sameElement option marked.
Proof.
  unfold matched, _onFilterMatch.
  destruct (LionOption.onFilterMatch option); [by intros [= <-]|].
  destruct (replaceFirstMatchWithBold _ _); [by intros [= <-] | done].
Qed.

Lemma optionAfterVisit_sameElement this curValue prevValue option option' :
  optionAfterVisit this curValue prevValue option = Normal option' ->
  sameElement option option'.
Proof.
  unfold optionAfterVisit. destruct (negb (truthy curValue)).
  - intros [= <-]. apply unmatched_sameElement.
  - pose proof (unmatched_sameElement curValue prevValue option) as Hfirst.
    destruct (filterOptionCondition _ _ _).
    + intros Hmarked%matched_sameElement.
      eapply sameElement_trans; [|exact Hmarked].
      eapply sameElement_trans; [exact Hfirst|]. apply sameElement_with_view.
    + intros [= <-].
      eapply sameElement_trans; [exact Hfirst|]. apply sameElement_with_view.
Qed.

Lemma optionAfterVisit_frame this this' curValue prevValue option :
  matchMode this' = matchMode this ->
  optionAfterVisit this' curValue prevValue option
  = optionAfterVisit this curValue prevValue option.
Proof.
  intros Hmode. unfold optionAfterVisit.
  by rewrite (filterOptionCondition_frame this this').
Qed.

(** The filter sees an option through its [choiceValue] only. *)
Lemma optionAfterVisit_filter this curValue prevValue option :
  filterOptionCondition this (withoutA11y (unmatched curValue prevValue option))
    curValue
  = filterOptionCondition this option curValue.
Proof.
  apply filterOptionCondition_choiceValue.
  unfold unmatched. by destruct (LionOption.onFilterUnmatch option).
Qed.

Lemma visitOption_option curValue prevValue adding index option this loc
    option' this' loc' :
  visitOption curValue prevValue adding index option (this, loc)
  = Normal (option', (this', loc')) ->
  optionAfterVisit this curValue prevValue option = Normal option'
  /\ onlyTextboxAndActiveChanged this this'.
Proof.
  unfold visitOption, optionAfterVisit.
  destruct (negb (truthy curValue)).
  - intros [= <- <- <-]. split; [done | apply onlyTextboxAndActiveChanged_refl].
  - destruct (filterOptionCondition _ _ _).
    + destruct (matched _ _) as [marked|]; [|discriminate].
      unfold mbind, Completion_bind, mret, Completion_ret.
      destruct (_ && _); intros [= <- <- <-]; (split; [done|]);
        [apply completeInline_frame | apply onlyTextboxAndActiveChanged_refl].
    + unfold mbind, Completion_bind, mret, Completion_ret.
      destruct (_ && _); intros [= <- <- <-]; (split; [done|]);
        [apply completeInline_frame | apply onlyTextboxAndActiveChanged_refl].
Qed.

(** After the first loop every option is what its visit made of it. *)
Lemma forEachOption_options curValue prevValue adding index options this loc
    options' this' loc' :
  forEachOption (visitOption curValue prevValue adding) index options (this, loc)
  = Normal (options', (this', loc')) ->
  forall i option,
    options !! i = Some option ->
    exists option',
      options' !! i = Some option'
      /\ optionAfterVisit this curValue prevValue option = Normal option'.
Proof.
  revert index this loc options'.
  induction options as [|first rest IH]; intros index this loc options';
    [by intros _ [|?]|].
  intros (first' & [this1 loc1] & rest' & Hvisit & Hrest & ->)%forEachOption_cons_inv.
  apply visitOption_option in Hvisit as (Hfirst & Hframe).
  destruct (frame_fields _ _ Hframe) as (_ & Hmode & _).
  intros [|i] option Hi.
  - injection Hi as <-. by exists first'.
  - destruct (IH _ _ _ _ Hrest i option Hi) as (option' & Hi' & Hafter).
    exists option'. split; [done|].
    by rewrite <- (optionAfterVisit_frame this this1).
Qed.

(** After a cycle, the option at [i] is what its visit made of it, with
    step [6] on top exactly if it was collected. *)
Lemma handleAutocompletion_option this curValue prevValue this' i option :
  autocomplete this <> "none" ->
  _handleAutocompletion this curValue prevValue = Normal this' ->
  formElements this !! i = Some option ->
  exists visited,
    optionAfterVisit this curValue prevValue option = Normal visited
    /\ (let refs := visibleFrom this curValue 0 (formElements this) in
        (exists k,
            refs !! k = Some i
            /\ formElements this' !! i
               = Some (enableOption k (length refs) visited))
        \/ ((i ∉ refs) /\ formElements this' !! i = Some visited)).
Proof.
  intros Hnone Hrun Hi.
  pose proof Hrun as Hshape. rewrite handleAutocompletion_unfold in Hshape by done.
  unfold mbind, Completion_bind in Hshape.
  destruct (collectVisibleOptions _ _ _) as [[this1 refs]|] eqn:Hcollect;
    [|discriminate].
  clear Hshape. pose proof Hcollect as Hspec.
  apply collectVisibleOptions_spec in Hspec
    as (Hrefs & _ & this0 & _ & _ & loc & Hloop).
  destruct (forEachOption_options _ _ _ _ _ _ _ _ _ _ Hloop i option Hi)
    as (visited & Hvisited & Hafter).
  exists visited. split; [done|]. cbn zeta. rewrite <- Hrefs.
  destruct (decide (i ∈ refs)) as [Hin|Hout].
  - left. apply list_elem_of_lookup_1 in Hin as [k Hk]. exists k. split; [done|].
    destruct (handleAutocompletion_visible _ _ _ _ _ _ _ Hnone Hcollect Hk)
      as (that & option1 & Hthat & Hoption1 & Hlookup).
    rewrite Hrun in Hthat. injection Hthat as <-. congruence.
  - right. split; [done|].
    destruct (handleAutocompletion_not_visible _ _ _ _ _ _ Hnone Hcollect Hout)
      as (that & Hthat & Hlookup).
    rewrite Hrun in Hthat. injection Hthat as <-. congruence.
Qed.

(** What a cycle keeps of the combobox, beyond [handleAutocompletion_frame]. *)
Lemma handleAutocompletion_keeps this curValue prevValue this' :
  _handleAutocompletion this curValue prevValue = Normal this' ->
  matchMode this' = matchMode this
  /\ autocomplete this' = autocomplete this
  /\ __cboxInputValue this' = __cboxInputValue this
  /\ __shouldAutocompleteNextUpdate this' = __shouldAutocompleteNextUpdate this
  /\ __blockListShow this' = __blockListShow this
  /\ opened this' = opened this
  /\ checkedIndex this' = checkedIndex this
  /\ multipleChoice this' = multipleChoice this
  /\ _comboboxNode this' = _comboboxNode this
  /\ _labelNode this' = _labelNode this
  /\ listboxSlotChild this' = listboxSlotChild this.
Proof.
  destruct (decide (autocomplete this = "none")) as [Hnone|Hnone].
  - unfold _handleAutocompletion. rewrite Hnone. by intros [= <-].
  - rewrite handleAutocompletion_unfold by done.
    unfold mbind, Completion_bind, mret, Completion_ret.
    destruct (collectVisibleOptions _ _ _) as [[this1 refs]|] eqn:Hcollect;
      [|discriminate].
    intros [= <-].
    apply collectVisibleOptions_spec in Hcollect
      as (_ & _ & this0 & (Hthis0 & _) & Hthis1 & _).
    rewrite Hthis1, Hthis0. unfold updatePopper. cbn.
    destruct (_overlayCtrl this) as [ctrl|]; [|done].
    by destruct (_popper ctrl).
Qed.

End cycle_options.

Section cycle_options_facts.
Context `{!RegExpEngine}.

Lemma visibleFrom_increasing this curValue index options k k' ref ref' :
  k < k' ->
  visibleFrom this curValue index options !! k = Some ref ->
  visibleFrom this curValue index options !! k' = Some ref' ->
  ref < ref'.
Proof.
  revert index k k'. induction options as [|option rest IH]; intros index k k' Hlt;
    [done|].
  cbn [visibleFrom]. destruct (_ || _); [|by apply IH].
  cbn [app]. destruct k' as [|k']; [lia|]. destruct k as [|k]; cbn.
  - intros [= <-] Hlater%list_elem_of_lookup_2%visibleFrom_bounds. lia.
  - apply IH. lia.
Qed.

(** The visit of a plain option that passes the filter. *)
Lemma optionAfterVisit_plain_shown this curValue prevValue option visited :
  truthy curValue = true ->
  isPlain option ->
  filterOptionCondition this option curValue = true ->
  optionAfterVisit this curValue prevValue option = Normal visited ->
  replaceFirstMatchWithBold (restoredMarkup option) curValue
  = Normal (LionOption.innerHTML (LionOption.view visited))
  /\ LionOption.__originalInnerHTML (LionOption.view visited)
     = Some (restoredMarkup option)
  /\ LionOption.style_display (LionOption.view visited) = "".
Proof.
  intros Htyped [Hunmatch Hmatch] Hshow. unfold optionAfterVisit.
  rewrite Htyped, optionAfterVisit_filter, Hshow. cbn [negb].
  unfold matched, unmatched, restoredMarkup. rewrite Hunmatch. cbn.
  rewrite Hmatch. unfold _onFilterMatch. cbn.
  destruct (LionOption.__originalInnerHTML (LionOption.view option))
    as [original|]; [destruct (truthy original)|]; cbn;
    (destruct (replaceFirstMatchWithBold _ _); [by intros [= <-] | done]).
Qed.

(** The visit of a plain option that does not pass the filter. *)
Lemma optionAfterVisit_plain_hidden this curValue prevValue option visited :
  truthy curValue = true ->
  isPlain option ->
  filterOptionCondition this option curValue = false ->
  optionAfterVisit this curValue prevValue option = Normal visited ->
  LionOption.innerHTML (LionOption.view visited) = restoredMarkup option
  /\ LionOption.style_display (LionOption.view visited) = "none"
  /\ LionOption.disabled (LionOption.view visited) = true.
Proof.
  intros Htyped [Hunmatch _] Hshow. unfold optionAfterVisit.
  rewrite Htyped, optionAfterVisit_filter, Hshow. cbn [negb].
  intros [= <-]. unfold unmatched, restoredMarkup. rewrite Hunmatch. cbn.
  destruct (LionOption.__originalInnerHTML (LionOption.view option))
    as [original|]; [destruct (truthy original)|]; done.
Qed.

(** With something typed, the references collected are those of the
    options that pass the filter. *)
Lemma elem_of_visibleFrom_typed this curValue options i option :
  truthy curValue = true ->
  options !! i = Some option ->
  i ∈ visibleFrom this curValue 0 options
  <-> filterOptionCondition this option curValue = true.
Proof.
  intros Htyped Hi. rewrite elem_of_visibleFrom. split.
  - intros (j & other & -> & Hj & Hpass). cbn in Hi.
    rewrite Hj in Hi. injection Hi as ->.
    destruct Hpass; congruence.
  - intros Hshow. exists i, option. auto.
Qed.

End cycle_options_facts.

(** The references a first loop collects are, with something typed, those
    of the options that pass [filterOptionCondition]; with nothing typed,
    those of all options; in either case in list order, each once. *)
Theorem visible_references `{!RegExpEngine} (this : LionCombobox)
    (curValue prevValue : string) (this1 : LionCombobox) (refs : list nat) :
  collectVisibleOptions this curValue prevValue = Normal (this1, refs) ->
  (curValue <> "" ->
   forall i option,
     formElements this !! i = Some option ->
     (i ∈ refs <-> filterOptionCondition this option curValue = true))
  /\ (curValue = "" -> refs = seq 0 (length (formElements this)))
  /\ (forall ref, ref ∈ refs -> ref < length (formElements this))
  /\ (forall k k' ref ref',
         k < k' -> refs !! k = Some ref -> refs !! k' = Some ref' -> ref < ref').
Proof.
  intros (-> & _)%collectVisibleOptions_spec. split; [|repeat split].
  - intros Htyped%truthy_nonempty i option Hi.
    by apply elem_of_visibleFrom_typed.
  - intros ->. by apply visibleFrom_empty.
  - intros ref Hin%visibleFrom_bounds. lia.
  - intros k k' ref ref'. apply visibleFrom_increasing.
Qed.

Lemma visible_references_witness :
  exists this1 refs,
    @collectVisibleOptions Example.literalEngine
      (Example.typed "Pe" Example.combobox) "Pe" "" = Normal (this1, refs)
    /\ (0 ∈ refs <-> true = true)
    /\ (2 ∈ refs <-> false = true).
Proof.
  destruct (@collectVisibleOptions Example.literalEngine
              (Example.typed "Pe" Example.combobox) "Pe" "")
    as [[this1 refs]|] eqn:Hcollect; [|discriminate Hcollect].
  exists this1, refs. split; [reflexivity|].
  destruct (@visible_references Example.literalEngine _ _ _ _ _ Hcollect)
    as (Htyped & _).
  split.
  - apply (Htyped ltac:(discriminate) 0 (Example.plainOption "o1" "Pear")).
    reflexivity.
  - apply (Htyped ltac:(discriminate) 2 (Example.plainOption "o3" "apricot")).
    reflexivity.
Defined.



(** After a cycle on a non-empty text box, a plain option is displayed
    ([style.display] '') and enabled exactly if it passes the filter, and
    hidden ([style.display] 'none') and disabled otherwise. *)
Theorem filtered_options_display `{!RegExpEngine} (this : LionCombobox)
    (curValue prevValue : string) (this' : LionCombobox)
    (i : nat) (option : LionOption) :
  autocomplete this <> "none" ->
  curValue <> "" ->
  _handleAutocompletion this curValue prevValue = Normal this' ->
  formElements this !! i = Some option ->
  isPlain option ->
  exists option',
    formElements this' !! i = Some option'
    /\ LionOption.style_display (LionOption.view option')
       = (if filterOptionCondition this option curValue then "" else "none")
    /\ LionOption.disabled (LionOption.view option')
       = negb (filterOptionCondition this option curValue).
Proof.
  intros Hnone Htyped%truthy_nonempty Hrun Hi Hplain.
  destruct (handleAutocompletion_option _ _ _ _ _ _ Hnone Hrun Hi)
    as (visited & Hvisited & Hplace).
  cbn zeta in Hplace. destruct Hplace as [(k & Hk & Hlookup)|[Hout Hlookup]].
  - apply list_elem_of_lookup_2 in Hk.
    apply (elem_of_visibleFrom_typed this curValue _ i option) in Hk; [|done..].
    rewrite Hk.
    apply optionAfterVisit_plain_shown in Hvisited as (_ & _ & Hdisplay);
      [|done..].
    eexists. split; [exact Hlookup|].
    destruct (enableOption_spec k
                (length (visibleFrom this curValue 0 (formElements this))) visited)
      as (_ & _ & -> & -> & _).
    done.
  - assert (filterOptionCondition this option curValue = false) as Hshow.
    { destruct (filterOptionCondition this option curValue) eqn:Hshow; [|done].
      destruct Hout.
      by apply (elem_of_visibleFrom_typed this curValue _ i option). }
    rewrite Hshow.
    apply optionAfterVisit_plain_hidden in Hvisited as (_ & ? & ?); [|done..].
    by exists visited.
Qed.

Lemma filtered_options_display_witness :
  exists this' shown hidden,
    @_handleAutocompletion Example.literalEngine
      (Example.typed "ap" Example.combobox) "ap" "" = Normal this'
    /\ formElements this' !! 1 = Some shown
    /\ LionOption.style_display (LionOption.view shown) = ""
    /\ formElements this' !! 0 = Some hidden
    /\ LionOption.style_display (LionOption.view hidden) = "none".
Proof.
  destruct (@_handleAutocompletion Example.literalEngine
              (Example.typed "ap" Example.combobox) "ap" "")
    as [this'|] eqn:Hrun; [|discriminate Hrun].
  destruct (@filtered_options_display Example.literalEngine
              (Example.typed "ap" Example.combobox) "ap" "" this' 1
              (Example.plainOption "o2" "Apple"))
    as (shown & Hshown & Hdisplay & _);
    [discriminate | discriminate | exact Hrun | reflexivity | by split |].
  destruct (@filtered_options_display Example.literalEngine
              (Example.typed "ap" Example.combobox) "ap" "" this' 0
              (Example.plainOption "o1" "Pear"))
    as (hidden & Hhidden & Hnone & _);
    [discriminate | discriminate | exact Hrun | reflexivity | by split |].
  exists this', shown, hidden. auto.
Defined.

(** [_onFilterUnmatch] after [_onFilterMatch] hides and disables the
    option and puts its markup back as it was before the match, unless
    that markup was the empty string: then the markup the match wrote
    stays. *)
Theorem unmatch_restores_markup `{!RegExpEngine} (option : LionOption)
    (matchingString : string) (marked : LionOption) (curValue prevValue : string) :
  _onFilterMatch option matchingString = Normal marked ->
  LionOption.innerHTML
    (LionOption.view (_onFilterUnmatch marked curValue prevValue))
  = (if truthy (LionOption.innerHTML (LionOption.view option))
     then LionOption.innerHTML (LionOption.view option)
     else LionOption.innerHTML (LionOption.view marked))
  /\ LionOption.style_display
       (LionOption.view (_onFilterUnmatch marked curValue prevValue)) = "none"
  /\ LionOption.disabled
       (LionOption.view (_onFilterUnmatch marked curValue prevValue)) = true.
Proof.
  unfold _onFilterMatch.
  destruct (replaceFirstMatchWithBold _ _) as [html|]; [|discriminate].
  intros [= <-]. unfold _onFilterUnmatch. cbn.
  by destruct (truthy (LionOption.innerHTML (LionOption.view option))).
Qed.

Lemma unmatch_restores_markup_witness :
  exists marked,
    @_onFilterMatch Example.literalEngine (Example.plainOption "o2" "Apple") "pp"
    = Normal marked
    /\ LionOption.innerHTML (LionOption.view marked) = "A<b>pp</b>le"
    /\ LionOption.innerHTML (LionOption.view (_onFilterUnmatch marked "" "pp"))
       = "Apple".
Proof.
  eexists. split; [reflexivity|]. split; [reflexivity|].
  apply (@unmatch_restores_markup Example.literalEngine
           (Example.plainOption "o2" "Apple") "pp").
  reflexivity.
Defined.

(** ** More about one cycle: the text box, the cached value, the popper *)

Section cycle_textbox.
Context `{!RegExpEngine}.

Lemma slice0_prefix s n : String.prefix (slice0 s n) s = true.
Proof.
  unfold slice0. revert n. induction s as [|c s IH]; intros [|n]; cbn; try done.
  destruct (Ascii.ascii_dec c c); [apply IH | done].
Qed.

Lemma slice0_length s n :
  String.length (slice0 s n) = Nat.min n (String.length s).
Proof.
  unfold slice0. revert n. induction s as [|c s IH]; intros [|n]; cbn; try done.
  by rewrite IH.
Qed.

Lemma slice0_all s : slice0 s (String.length s) = s.
Proof. unfold slice0. induction s as [|c s IH]; cbn; [done | by rewrite IH]. Qed.

(** A loop in which step [5] never applies leaves the combobox alone. *)
Lemma forEachOption_untouched curValue prevValue adding index options this loc
    options' this' loc' :
  (adding = false
   \/ truthy curValue = false
   \/ forall i option, options !! i = Some option ->
                       beginsWith option curValue = false) ->
  forEachOption (visitOption curValue prevValue adding) index options (this, loc)
  = Normal (options', (this', loc')) ->
  this' = this.
Proof.
  destruct (truthy curValue) eqn:Htyped.
  2:{ intros _.
      destruct (forEachOption_empty curValue prevValue adding index options this loc
                  Htyped) as (loc1 & -> & _).
      by intros [= _ <- _]. }
  intros Hnever. revert index this loc options'.
  induction options as [|first rest IH]; intros index this loc options';
    [by intros [= <- <- <-]|].
  intros (first' & [this1 loc1] & rest' & Hvisit & Hrest & ->)%forEachOption_cons_inv.
  apply visitOption_typed in Hvisit as (Hthis1 & _); [|done].
  assert (beginsWith first curValue && negb (hasAutoFilled loc)
          && filterOptionCondition this first curValue && adding = false) as Hfills.
  { destruct Hnever as [-> |[?|Hnone]]; [by rewrite andb_false_r | done |].
    by rewrite (Hnone 0 first). }
  rewrite Hfills in Hthis1. subst this1. eapply IH; [|exact Hrest].
  destruct Hnever as [?|[?|Hnone]]; auto.
  right. right. intros i option Hi. by apply (Hnone (S i)).
Qed.

(** Unless [autocomplete] is 'both', a loop keeps the text box. *)
Lemma forEachOption_keeps_textbox curValue prevValue adding index options
    this loc options' this' loc' :
  autocomplete this <> "both" ->
  forEachOption (visitOption curValue prevValue adding) index options (this, loc)
  = Normal (options', (this', loc')) ->
  _inputNode this' = _inputNode this.
Proof.
  revert index this loc options'.
  induction options as [|first rest IH]; intros index this loc options' Hlist;
    [by intros [= <- <- <-]|].
  intros (first' & [this1 loc1] & rest' & Hvisit & Hrest & ->)%forEachOption_cons_inv.
  assert (_inputNode this1 = _inputNode this
          /\ autocomplete this1 = autocomplete this) as [Hinput Hauto].
  { destruct (truthy curValue) eqn:Htyped.
    - apply visitOption_typed in Hvisit as (-> & _); [|done].
      destruct (_ && _); [|done]. unfold completeInline.
      apply String.eqb_neq in Hlist. by rewrite Hlist.
    - rewrite visitOption_empty in Hvisit by done. by injection Hvisit as _ <- _. }
  rewrite <- Hinput. eapply IH; [|exact Hrest]. by rewrite Hauto.
Qed.

(** While the user adds characters, a loop over options one of which
    begins with the typed text completes from one of them. *)
Lemma forEachOption_completes_some curValue prevValue index options this loc
    options' this' loc' i option :
  truthy curValue = true ->
  hasAutoFilled loc = false ->
  forEachOption (visitOption curValue prevValue true) index options (this, loc)
  = Normal (options', (this', loc')) ->
  options !! i = Some option ->
  beginsWith option curValue = true ->
  exists j first,
    options !! j = Some first
    /\ beginsWith first curValue = true
    /\ this' = completeInline (index + j) first this.
Proof.
  intros Htyped. revert index this loc options' i.
  induction options as [|head rest IH];
    intros index this loc options' i Hfresh Hrun Hi Hbegins; [done|].
  destruct (beginsWith head curValue) eqn:Hhead.
  - exists 0, head. split; [done|]. split; [done|].
    eapply forEachOption_completes; try done. intros j earlier Hj. lia.
  - destruct i as [|i]; [cbn in Hi; congruence|].
    apply forEachOption_cons_inv in Hrun
      as (head' & [this1 loc1] & rest' & Hvisit & Hrest & ->).
    apply visitOption_typed in Hvisit as (Hthis1 & _ & Hfilled1 & _); [|done].
    rewrite Hhead, Hfresh in Hthis1, Hfilled1. cbn in Hthis1, Hfilled1. subst this1.
    destruct (IH _ _ _ _ i Hfilled1 Hrest Hi Hbegins)
      as (j & first & Hj & Hfirst & ->).
    exists (S j), first. split; [done|]. split; [done|]. f_equal. lia.
Qed.

(** A cycle, by its first loop: the text box and the active index are as
    the loop left them, the cached value is cut from [curValue] at the
    text box's [selectionStart], and the popper is updated. *)
Lemma handleAutocompletion_shape this curValue prevValue this' :
  autocomplete this <> "none" ->
  _handleAutocompletion this curValue prevValue = Normal this' ->
  exists options this0 loc,
    forEachOption
      (visitOption curValue prevValue
         (String.length prevValue <? String.length curValue)) 0
      (formElements this)
      (this, {| visibleOptions := []; hasAutoFilled := false |})
    = Normal (options, (this0, loc))
    /\ _inputNode this' = _inputNode this0
    /\ activeIndex this' = activeIndex this0
    /\ __prevCboxValueNonSelected this'
       = slice0 curValue (selectionStart (_inputNode this0))
    /\ _overlayCtrl this' = _overlayCtrl (updatePopper this).
Proof.
  intros Hnone. rewrite handleAutocompletion_unfold by done.
  unfold mbind, Completion_bind, mret, Completion_ret.
  destruct (collectVisibleOptions _ _ _) as [[this1 refs]|] eqn:Hcollect;
    [|discriminate].
  intros [= <-].
  apply collectVisibleOptions_spec in Hcollect
    as (_ & _ & this0 & (Hthis0 & _) & Hthis1 & loc & Hloop).
  exists (formElements this1), this0, loc. split; [done|].
  assert (_inputNode this1 = _inputNode this0) as Hinput by by rewrite Hthis1.
  assert (activeIndex this1 = activeIndex this0) as Hactive by by rewrite Hthis1.
  assert (_overlayCtrl this1 = _overlayCtrl this) as Hctrl
      by by rewrite Hthis1, Hthis0.
  destruct (updatePopper_fields
              (set___prevCboxValueNonSelected
                 (slice0 curValue (selectionStart (_inputNode this1)))
                 (set_formElements
                    (forEachVisible refs 0 (length refs) (formElements this1))
                    this1))) as (_ & -> & -> & _ & _ & _ & _ & ->).
  cbn [_inputNode activeIndex __prevCboxValueNonSelected
       set___prevCboxValueNonSelected set_formElements].
  rewrite Hinput, Hactive. do 3 (split; [done|]).
  unfold updatePopper.
  cbn [_overlayCtrl set___prevCboxValueNonSelected set_formElements].
  rewrite Hctrl. destruct (_overlayCtrl this) as [ctrl|] eqn:Hthis;
    [|cbn; congruence].
  destruct (_popper ctrl); cbn; congruence.
Qed.

End cycle_textbox.





(** After a cycle, the cached previous value is the typed value cut at the
    text box's [selectionStart]: a leading part of the typed value, as
    long as the shorter of the two. *)
Theorem cached_value_is_typed_prefix `{!RegExpEngine} (this : LionCombobox)
    (curValue prevValue : string) (this' : LionCombobox) :
  autocomplete this <> "none" ->
  _handleAutocompletion this curValue prevValue = Normal this' ->
  String.prefix (__prevCboxValueNonSelected this') curValue = true
  /\ String.length (__prevCboxValueNonSelected this')
     = Nat.min (selectionStart (_inputNode this')) (String.length curValue).
Proof.
  intros Hnone Hrun.
  destruct (handleAutocompletion_shape _ _ _ _ Hnone Hrun)
    as (options & this0 & loc & _ & -> & _ & -> & _).
  split; [apply slice0_prefix | apply slice0_length].
Qed.

Lemma cached_value_is_typed_prefix_witness :
  exists this',
    @_handleAutocompletion Example.literalEngine
      (Example.typed "ap" Example.combobox) "ap" "a" = Normal this'
    /\ String.length (__prevCboxValueNonSelected this') = 2.
Proof.
  destruct (@_handleAutocompletion Example.literalEngine
              (Example.typed "ap" Example.combobox) "ap" "a")
    as [this'|] eqn:Hrun; [|discriminate Hrun].
  exists this'. split; [reflexivity|].
  destruct (@cached_value_is_typed_prefix Example.literalEngine
              (Example.typed "ap" Example.combobox) "ap" "a" this') as [_ ->];
    [discriminate | exact Hrun |].
  vm_compute in Hrun. injection Hrun as <-. reflexivity.
Defined.



(** A cycle that runs ([autocomplete] is not 'none') calls the popper's
    [update()] exactly once when the overlay controller has a popper, and
    leaves the controller alone otherwise. *)
Theorem popper_updated_once `{!RegExpEngine} (this : LionCombobox)
    (curValue prevValue : string) (this' : LionCombobox) :
  autocomplete this <> "none" ->
  _handleAutocompletion this curValue prevValue = Normal this' ->
  match _overlayCtrl this with
  | Some ctrl =>
      match _popper ctrl with
      | Some popper =>
          _overlayCtrl this'
          = Some {| contentNode := contentNode ctrl;
                    _popper := Some {| updateCalls := S (updateCalls popper) |} |}
      | None => _overlayCtrl this' = Some ctrl
      end
  | None => _overlayCtrl this' = None
  end.
Proof.
  intros Hnone Hrun.
  destruct (handleAutocompletion_shape _ _ _ _ Hnone Hrun)
    as (options & this0 & loc & _ & _ & _ & _ & ->).
  unfold updatePopper. destruct (_overlayCtrl this) as [ctrl|] eqn:Hctrl; [|done].
  by destruct (_popper ctrl).
Qed.

Lemma popper_updated_once_witness :
  exists this',
    @_handleAutocompletion Example.literalEngine
      (set__overlayCtrl
         (Some {| contentNode := None; _popper := Some {| updateCalls := 4 |} |})
         Example.combobox) "" "" = Normal this'
    /\ _overlayCtrl this'
       = Some {| contentNode := None; _popper := Some {| updateCalls := 5 |} |}.
Proof.
  destruct (@_handleAutocompletion Example.literalEngine
              (set__overlayCtrl
                 (Some {| contentNode := None;
                          _popper := Some {| updateCalls := 4 |} |})
                 Example.combobox) "" "")
    as [this'|] eqn:Hrun; [|discriminate Hrun].
  exists this'. split; [reflexivity|].
  apply (@popper_updated_once Example.literalEngine
           (set__overlayCtrl
              (Some {| contentNode := None; _popper := Some {| updateCalls := 4 |} |})
              Example.combobox) "" "" this'); [discriminate | exact Hrun].
Defined.

(** ** More about one cycle: the markup over two cycles *)

Section cycle_markup.
Context `{!RegExpEngine}.

Lemma enableOption_markup idx total option :
  LionOption.innerHTML (LionOption.view (enableOption idx total option))
  = LionOption.innerHTML (LionOption.view option)
  /\ LionOption.__originalInnerHTML (LionOption.view (enableOption idx total option))
     = LionOption.__originalInnerHTML (LionOption.view option)
  /\ sameElement option (enableOption idx total option).
Proof. done. Qed.

(** One cycle on a plain option that passes the filter: the host's engine
    ran on the markup step [1] put back, and that markup is remembered. *)
Lemma cycle_marks_plain this curValue prevValue this' i option :
  autocomplete this <> "none" ->
  truthy curValue = true ->
  _handleAutocompletion this curValue prevValue = Normal this' ->
  formElements this !! i = Some option ->
  isPlain option ->
  filterOptionCondition this option curValue = true ->
  exists option',
    formElements this' !! i = Some option'
    /\ replaceFirstMatchWithBold (restoredMarkup option) curValue
       = Normal (LionOption.innerHTML (LionOption.view option'))
    /\ LionOption.__originalInnerHTML (LionOption.view option')
       = Some (restoredMarkup option)
    /\ sameElement option option'.
Proof.
  intros Hnone Htyped Hrun Hi Hplain Hshow.
  destruct (handleAutocompletion_option _ _ _ _ _ _ Hnone Hrun Hi)
    as (visited & Hvisited & Hplace).
  pose proof (optionAfterVisit_sameElement _ _ _ _ _ Hvisited) as Hsame.
  apply optionAfterVisit_plain_shown in Hvisited as (Hengine & Horiginal & _);
    [|done..].
  cbn zeta in Hplace. destruct Hplace as [(k & _ & Hlookup)|[_ Hlookup]].
  - eexists. split; [exact Hlookup|].
    destruct (enableOption_markup k
                (length (visibleFrom this curValue 0 (formElements this))) visited)
      as (-> & -> & Hsame').
    repeat split; try done. by eapply sameElement_trans.
  - by exists visited.
Qed.

End cycle_markup.



(** ** Listeners, set up and torn down *)

Section teardown.

Lemma elem_of_removeEventListener r type l e :
  r ∈ listeners (removeEventListener type l e)
  <-> r ∈ listeners e /\ r <> (type, l).
Proof. unfold removeEventListener. cbn. rewrite list_elem_of_filter. tauto. Qed.

Lemma filter_ne_fresh (r : string * Listener) (l : list (string * Listener)) :
  r ∉ l -> filter (fun r' => r' <> r) l = l.
Proof.
  induction l as [|r' rest IH]; [done|].
  intros [Hne Hrest]%not_elem_of_cons.
  rewrite filter_cons_True by done. by rewrite IH.
Qed.

Lemma filter_ne_singleton_same (r : string * Listener) :
  filter (fun r' => r' <> r) [r] = [].
Proof. by rewrite filter_cons_False by (by intros ?). Qed.

Lemma filter_ne_singleton_other (r r' : string * Listener) :
  r' <> r -> filter (fun r'' => r'' <> r) [r'] = [r'].
Proof. intros Hne. by rewrite filter_cons_True by done. Qed.

End teardown.

(** [__teardownCombobox] undoes the listeners of [__setupCombobox]: on an
    input node that had neither listener before, set-up followed by
    tear-down leaves the listeners as they were.  The ARIA attributes
    written at set-up stay, and so does the combobox node. *)
Theorem setup_teardown_listeners (this this1 : LionCombobox) :
  __setupCombobox this = Normal this1 ->
  ("keydown", listener_listboxOnKeyDown)
    ∉ listeners (input_elem (_inputNode this)) ->
  ("input", listener_textboxOnInput)
    ∉ listeners (input_elem (_inputNode this)) ->
  listeners (input_elem (_inputNode (__teardownCombobox this1)))
  = listeners (input_elem (_inputNode this))
  /\ attributes (input_elem (_inputNode (__teardownCombobox this1)))
     = attributes (input_elem (_inputNode this1))
  /\ _comboboxNode (__teardownCombobox this1) = _comboboxNode this1.
Proof.
  unfold __setupCombobox.
  destruct (_comboboxNode this) as [node|]; [|discriminate].
  unfold mbind, Completion_bind, mret, Completion_ret.
  intros [= <-] Hkeydown Hinput. unfold __teardownCombobox.
  cbn [_inputNode set__inputNode set__comboboxNode input_elem input_with_elem
       _comboboxNode].
  split; [|done].
  unfold removeEventListener, addEventListener. cbn [listeners setAttribute].
  destruct (decide (("keydown", listener_listboxOnKeyDown)
                    ∈ listeners (input_elem (_inputNode this)))) as [?|_];
    [done|].
  destruct (decide (("input", listener_textboxOnInput)
                    ∈ listeners (input_elem (_inputNode this))
                      ++ [("keydown", listener_listboxOnKeyDown)])) as [Hin|_].
  { apply elem_of_app in Hin as [?|Hin%list_elem_of_singleton];
      [done | discriminate]. }
  rewrite !filter_app.
  rewrite (filter_ne_fresh ("keydown", listener_listboxOnKeyDown)) by done.
  rewrite (filter_ne_fresh ("input", listener_textboxOnInput)) by done.
  rewrite (filter_ne_singleton_same ("keydown", listener_listboxOnKeyDown)).
  rewrite (filter_ne_singleton_other ("keydown", listener_listboxOnKeyDown)
             ("input", listener_textboxOnInput)) by done.
  rewrite (filter_ne_singleton_same ("input", listener_textboxOnInput)).
  by rewrite filter_nil, !app_nil_r.
Qed.

Lemma setup_teardown_listeners_witness :
  exists this1,
    __setupCombobox Example.combobox = Normal this1
    /\ listeners (input_elem (_inputNode this1))
       = [("keydown", listener_listboxOnKeyDown); ("input", listener_textboxOnInput)]
    /\ listeners (input_elem (_inputNode (__teardownCombobox this1))) = [].
Proof.
  eexists. split; [reflexivity|]. split; [reflexivity|].
  apply (setup_teardown_listeners Example.combobox);
    [reflexivity | apply not_elem_of_nil..].
Defined.

(** [_teardownOpenCloseListeners] returns exactly when the invoker node is
    there once the base class is done; it then removes the keyup listener
    of [__showOverlay] from that node and keeps every other listener. *)
Theorem teardown_removes_keyup `{!Superclass} (this : LionCombobox) :
  match _comboboxNode (super__teardownOpenCloseListeners this) with
  | Some node =>
      exists this' node',
        _teardownOpenCloseListeners this = Normal this'
        /\ _comboboxNode this' = Some node'
        /\ forall r, r ∈ listeners node'
                     <-> r ∈ listeners node /\ r <> ("keyup", listener_showOverlay)
  | None => _teardownOpenCloseListeners this = Throw TypeError
  end.
Proof.
  unfold _teardownOpenCloseListeners, _overlayInvokerNode.
  destruct (_comboboxNode _) as [node|]; [|done].
  eexists _, _. split; [reflexivity|]. split; [reflexivity|].
  intros r. apply elem_of_removeEventListener.
Qed.

(** ** Selecting an option *)

Section selecting.

Lemma at_index_Some {A} (l : list A) (z : Z) :
  (0 <= z < Z.of_nat (length l))%Z -> is_Some (at_index l z).
Proof.
  intros Hbounds. unfold at_index.
  destruct (Z.ltb_spec z 0); [lia|]. apply lookup_lt_is_Some_2. lia.
Qed.

Lemma at_index_None {A} (l : list A) (z : Z) :
  ~ (0 <= z < Z.of_nat (length l))%Z -> at_index l z = None.
Proof.
  intros Hbounds. unfold at_index.
  destruct (Z.ltb_spec z 0); [done|]. apply lookup_ge_None_2. lia.
Qed.

End selecting.

(** [__syncCheckedWithTextboxOnInteraction] returns exactly when the
    combobox is multiple-choice or [checkedIndex] lies within
    [formElements]; otherwise it throws a [TypeError].  In multiple-choice
    mode it does nothing; in single-choice mode it writes the checked
    option's [value] into the text box and closes the listbox. *)
Theorem syncChecked_outcome (this : LionCombobox) :
  (multipleChoice this = true ->
   __syncCheckedWithTextboxOnInteraction this = Normal this)
  /\ (multipleChoice this = false ->
      (0 <= checkedIndex this < Z.of_nat (length (formElements this)))%Z ->
      exists this' checked,
        __syncCheckedWithTextboxOnInteraction this = Normal this'
        /\ formElements this !! Z.to_nat (checkedIndex this) = Some checked
        /\ value (_inputNode this') = LionOption.value checked
        /\ opened this' = false
        /\ formElements this' = formElements this
        /\ __cboxInputValue this' = __cboxInputValue this)
  /\ (multipleChoice this = false ->
      ~ (0 <= checkedIndex this < Z.of_nat (length (formElements this)))%Z ->
      __syncCheckedWithTextboxOnInteraction this = Throw TypeError).
Proof.
  unfold __syncCheckedWithTextboxOnInteraction. repeat split.
  - by intros ->.
  - intros -> Hbounds. cbn [negb].
    destruct (at_index_Some (formElements this) (checkedIndex this) Hbounds)
      as [checked Hchecked].
    rewrite Hchecked. eexists _, checked. split; [reflexivity|].
    split; [|done]. unfold at_index in Hchecked.
    by destruct (Z.ltb_spec (checkedIndex this) 0); [lia|].
  - intros -> Hbounds. cbn [negb]. by rewrite at_index_None.
Qed.


Section runs_of_selecting.
#[local] Existing Instance Example.literalEngine.
#[local] Existing Instance Example.idleSuperclass.

Lemma syncChecked_outcome_witness :
  (exists this',
      __syncCheckedWithTextboxOnInteraction (Example.withChecked 1 Example.combobox)
      = Normal this'
      /\ value (_inputNode this') = "Apple"
      /\ opened this' = false)
  /\ __syncCheckedWithTextboxOnInteraction (Example.withChecked 3 Example.combobox)
     = Throw TypeError.
Proof.
  split.
  - destruct (proj1 (proj2 (syncChecked_outcome
                              (Example.withChecked 1 Example.combobox))))
      as (this' & checked & Hrun & Hchecked & Hvalue & Hopened & _);
      [reflexivity | simpl; lia |].
    exists this'. split; [exact Hrun|]. split; [|exact Hopened].
    rewrite Hvalue. by injection Hchecked as <-.
  - apply (proj2 (proj2 (syncChecked_outcome
                           (Example.withChecked 3 Example.combobox))));
      [reflexivity | simpl; lia].
Defined.


End runs_of_selecting.

(** ** More about the update cycle *)

Section update_schedule.
Context `{!RegExpEngine} `{!Superclass}.

(** [updated], step by step: the attribute writes give [written], which
    agrees with the element as [super.updated] left it on everything a
    cycle reads or writes; then comes the scheduled cycle, if any, and the
    call of the [selection-display] element. *)
Lemma updated_steps changedProperties this :
  let base := super_updated changedProperties this in
  exists written,
    updated changedProperties this
    = (this4 ←
         (if has "__shouldAutocompleteNextUpdate" changedProperties
             && __shouldAutocompleteNextUpdate written
          then
            that ← _handleAutocompletion written (__cboxInputValue written)
                     (__prevCboxValueNonSelected written);
            mret (set___shouldAutocompleteNextUpdate false that)
          else mret written);
       mret (match _selectionDisplayNode this4 with
             | Some node =>
                 set__selectionDisplayNode
                   (Some (onComboboxElementUpdated changedProperties node)) this4
             | None => this4
             end))
    /\ __shouldAutocompleteNextUpdate written = __shouldAutocompleteNextUpdate base
    /\ formElements written = formElements base
    /\ value (_inputNode written) = value (_inputNode base)
    /\ selectionStart (_inputNode written) = selectionStart (_inputNode base)
    /\ selectionEnd (_inputNode written) = selectionEnd (_inputNode base)
    /\ activeIndex written = activeIndex base
    /\ __prevCboxValueNonSelected written = __prevCboxValueNonSelected base
    /\ __cboxInputValue written = __cboxInputValue base
    /\ opened written = opened base.
Proof.
  intros base. eexists. split; [reflexivity|]. fold base.
  by destruct (has "autocomplete" changedProperties),
              (has "disabled" changedProperties).
Qed.

End update_schedule.


(** An update cycle runs no autocompletion unless one is scheduled: when
    the flag is not among the changed properties, or is not set, [updated]
    always returns, and the options, the text box's value and selection,
    the active index, the cached values and the open state are as
    [super.updated] left them. *)
Theorem updated_without_schedule `{!RegExpEngine} `{!Superclass}
    (changedProperties : PropertyValues) (this : LionCombobox) :
  has "__shouldAutocompleteNextUpdate" changedProperties
  && __shouldAutocompleteNextUpdate (super_updated changedProperties this)
  = false ->
  exists this',
    updated changedProperties this = Normal this'
    /\ formElements this' = formElements (super_updated changedProperties this)
    /\ value (_inputNode this')
       = value (_inputNode (super_updated changedProperties this))
    /\ selectionStart (_inputNode this')
       = selectionStart (_inputNode (super_updated changedProperties this))
    /\ selectionEnd (_inputNode this')
       = selectionEnd (_inputNode (super_updated changedProperties this))
    /\ activeIndex this' = activeIndex (super_updated changedProperties this)
    /\ __prevCboxValueNonSelected this'
       = __prevCboxValueNonSelected (super_updated changedProperties this)
    /\ __cboxInputValue this'
       = __cboxInputValue (super_updated changedProperties this)
    /\ opened this' = opened (super_updated changedProperties this).
Proof.
  intros Hidle.
  destruct (updated_steps changedProperties this)
    as (written & -> & Hflag & <- & <- & <- & <- & <- & <- & <- & <-).
  rewrite Hflag, Hidle.
  unfold mbind, Completion_bind, mret, Completion_ret.
  eexists. split; [reflexivity|]. by destruct (_selectionDisplayNode written).
Qed.

Section runs_of_schedule.
#[local] Existing Instance Example.literalEngine.
#[local] Existing Instance Example.idleSuperclass.


Lemma updated_without_schedule_witness :
  exists this',
    updated {[ "disabled" := JsBoolean true ]}
      (Example.typed "ap" Example.combobox) = Normal this'
    /\ formElements this' = Example.fruits.
Proof.
  destruct (updated_without_schedule {[ "disabled" := JsBoolean true ]}
              (Example.typed "ap" Example.combobox))
    as (this' & Hrun & Hoptions & _); [reflexivity|].
  exists this'. split; [exact Hrun | exact Hoptions].
Defined.

End runs_of_schedule.

(** ** More about matching *)

Section matching_relations.

Lemma append_nil_r (s : string) : s +:+ "" = s.
Proof. induction s as [|c s IH]; [done|]. by rewrite append_cons, IH. Qed.

Lemma toLowerCase_truthy s : truthy (toLowerCase s) = truthy s.
Proof. by destruct s. Qed.

End matching_relations.

(** Whatever matches in a begin-only mode matches in mode 'all': going
    from any [matchMode] to 'all' never filters an option out. *)
Theorem begin_matches_are_all_matches (this this' : LionCombobox)
    (option : LionOption) (curValue : string) :
  matchMode this' = "all" ->
  filterOptionCondition this option curValue = true ->
  filterOptionCondition this' option curValue = true.
Proof.
  unfold filterOptionCondition. intros ->. cbn.
  destruct (String.eqb _ _); [done|].
  intros ->%Z.eqb_eq. done.
Qed.

Lemma begin_matches_are_all_matches_witness :
  filterOptionCondition Example.combobox (Example.plainOption "o2" "Apple") "aP"
  = true.
Proof.
  apply (begin_matches_are_all_matches
           (Example.configured "both" "begin" Example.combobox)); reflexivity.
Defined.

(** In every match mode, an option passes the filter on its own
    [choiceValue] typed in any letter case, and every option passes the
    filter on the empty text. *)
Theorem option_matches_its_own_text (this : LionCombobox) (option : LionOption)
    (curValue : string) :
  (equalIgnoringCase curValue (LionOption.choiceValue option) ->
   filterOptionCondition this option curValue = true)
  /\ filterOptionCondition this option "" = true.
Proof.
  split.
  - intros Hsame. apply beginsWith_filterOptionCondition, indexOf_beginsWith.
    exists (LionOption.choiceValue option), "".
    by rewrite append_nil_r.
  - apply beginsWith_filterOptionCondition, indexOf_beginsWith.
    by exists "", (LionOption.choiceValue option).
Qed.

(** The visible set does not depend on the letter case of the typed text:
    two first loops on texts that are equal up to case collect the same
    references. *)
Theorem visible_set_ignores_case `{!RegExpEngine} (this : LionCombobox)
    (curValue curValue' prevValue prevValue' : string)
    (this1 this1' : LionCombobox) (refs refs' : list nat) :
  equalIgnoringCase curValue curValue' ->
  collectVisibleOptions this curValue prevValue = Normal (this1, refs) ->
  collectVisibleOptions this curValue' prevValue' = Normal (this1', refs') ->
  refs = refs'.
Proof.
  intros Hsame (-> & _)%collectVisibleOptions_spec
    (-> & _)%collectVisibleOptions_spec.
  assert (truthy curValue = truthy curValue') as Htruthy.
  { rewrite <- (toLowerCase_truthy curValue), <- (toLowerCase_truthy curValue').
    by rewrite Hsame. }
  generalize 0. induction (formElements this) as [|option rest IH]; intros index;
    [done|].
  cbn [visibleFrom]. rewrite IH, Htruthy. do 2 f_equal.
  unfold filterOptionCondition. by rewrite Hsame.
Qed.

Lemma visible_set_ignores_case_witness :
  exists this1 this1' refs,
    @collectVisibleOptions Example.literalEngine Example.combobox "pe" ""
    = Normal (this1, refs)
    /\ @collectVisibleOptions Example.literalEngine Example.combobox "PE" "p"
       = Normal (this1', refs).
Proof.
  destruct (@collectVisibleOptions Example.literalEngine Example.combobox "pe" "")
    as [[this1 refs]|] eqn:Hlower; [|discriminate Hlower].
  destruct (@collectVisibleOptions Example.literalEngine Example.combobox "PE" "p")
    as [[this1' refs']|] eqn:Hupper; [|discriminate Hupper].
  exists this1, this1', refs. split; [reflexivity|].
  by rewrite (@visible_set_ignores_case Example.literalEngine Example.combobox
                "pe" "PE" "" "p" this1 this1' refs refs' eq_refl Hlower Hupper).
Defined.

(** ** The combobox node: disabled, read-only, set-up, opening *)



(** [_setupOverlayCtrl] returns exactly when the first filtering of the
    listbox returns and, once the base class is done, the combobox node is
    there; with the filtering done and the node absent it throws a
    [TypeError]. *)
Theorem setupOverlayCtrl_outcome `{!RegExpEngine} `{!Superclass}
    (this : LionCombobox) :
  let base := super__setupOverlayCtrl this in
  ((exists this', _setupOverlayCtrl this = Normal this')
   <-> (exists filtered, __initFilterListbox base = Normal filtered)
       /\ is_Some (_comboboxNode base))
  /\ ((exists filtered, __initFilterListbox base = Normal filtered) ->
      _comboboxNode base = None ->
      _setupOverlayCtrl this = Throw TypeError).
Proof.
  intros base. unfold _setupOverlayCtrl. fold base.
  unfold mbind, Completion_bind.
  destruct (__initFilterListbox base) as [filtered|] eqn:Hfilter.
  - apply handleAutocompletion_keeps in Hfilter
      as (_ & _ & _ & _ & _ & _ & _ & _ & Hnode & _).
    unfold __setupCombobox. rewrite Hnode.
    destruct (_comboboxNode base) as [node|].
    + split; [|done]. split; [intros _|intros _; by eexists].
      split; [by eexists | by eexists].
    + split; [|done]. split; [by intros [? ?] | by intros [_ [? ?]]].
  - split; [|by intros [? ?]]. split; [by intros [? ?] | by intros [[? ?] _]].
Qed.

(** [__showOverlay] never closes the listbox and changes nothing but
    [opened]; it opens the listbox exactly when the key is none of 'Tab',
    'Esc' and 'Enter' and showing the list is not blocked. *)
Theorem showOverlay_outcome (ev : KeyboardEvent) (this : LionCombobox) :
  __showOverlay ev this = set_opened (opened (__showOverlay ev this)) this
  /\ (opened (__showOverlay ev this) = true
      <-> opened this = true
          \/ (key ev <> "Tab" /\ key ev <> "Esc" /\ key ev <> "Enter"
              /\ __blockListShow this = false)).
Proof.
  unfold __showOverlay.
  destruct (String.eqb_spec (key ev) "Tab") as [Htab|Htab];
    destruct (String.eqb_spec (key ev) "Esc") as [Hesc|Hesc];
    destruct (String.eqb_spec (key ev) "Enter") as [Henter|Henter];
    destruct (__blockListShow this) eqn:Hblock; cbn [orb];
    (split; [by destruct this|]); cbn; intuition congruence.
Qed.
